(** * Scan-report classification and exit-code policy of [cs_scanimage.py]

    A shallow embedding of the part of [cs_scanimage.py] that polls the
    scanning service for a report ([get_scanreport]), classifies the report
    ([ScanReport.get_alerts_vuln], [get_alerts_malware], [get_alerts_secrets],
    [get_alerts_misconfig], [status_code]) and turns the classification into
    a process exit code (the second half of [main]).

    The report is a weakly typed JSON value, so the embedding keeps Python's
    dynamic typing: a value is a [pyval], a dictionary is a [gmap] from
    strings, and every primitive that Python can fail on ([x[k]], [x.get],
    [x.lower()], iteration) returns an [outcome] that is either a value or
    the exception Python raises.  Logging, sleeping and the remote call are
    recorded as a trace of [event]s next to the outcome.

    Text is modelled as Rocq [string]s; [str.lower] is modelled on the ASCII
    letters, which is where it can produce one of the keywords the program
    compares against. *)

From Stdlib Require Import ZArith String Ascii List Bool Lia DecimalString.
From stdpp Require Import base option gmap strings list fin_maps.

Local Set Warnings "-register-all".
Local Open Scope string_scope.
Local Open Scope Z_scope.
Local Open Scope list_scope.

(* ===================================================================== *)
(** ** Python values, exceptions and outcomes *)
(* ===================================================================== *)

(** What [json.loads] can produce: [null], booleans, integers, floats
    (kept as mantissa and decimal exponent, never inspected), strings,
    arrays and objects. *)
Inductive pyval : Type :=
  | PNone
  | PBool (b : bool)
  | PInt (n : Z)
  | PFloat (mantissa exponent : Z)
  | PStr (s : string)
  | PList (items : list pyval)
  | PDict (d : gmap string pyval).

(** The exceptions that can travel through the modelled code.  All of them
    except [SystemExit] derive from Python's [Exception]. *)
Inductive pyexn : Type :=
  | KeyError (key : string)
  | TypeError
  | AttributeError
  | ValueError
  | OSError
  | APIError
  | RetryExhaustedError (message : string)
  | SystemExit (code : Z).

Inductive outcome (A : Type) : Type :=
  | Return (a : A)
  | Raise (e : pyexn).
Arguments Return {A} a.
Arguments Raise {A} e.

#[global] Instance outcome_ret : MRet outcome := fun A a => Return a.
#[global] Instance outcome_bind : MBind outcome := fun A B f m =>
  match m with
  | Return a => f a
  | Raise e => Raise e
  end.

Definition returns {A : Type} (o : outcome A) : Prop := ∃ a, o = Return a.

(** [isinstance(e, Exception)]: [SystemExit] derives from [BaseException]
    only, so [except Exception] lets it through. *)
Definition is_Exception (e : pyexn) : bool :=
  match e with
  | SystemExit _ => false
  | _ => true
  end.

(* ===================================================================== *)
(** ** Python primitives used by the program *)
(* ===================================================================== *)

(** [x is None] *)
Definition is_None (x : pyval) : bool :=
  match x with
  | PNone => true
  | _ => false
  end.

(** [x[key]] for a string [key]: a dictionary looks the key up and raises
    [KeyError] when it is missing; lists and strings take integer indices
    only, the remaining values are not subscriptable (both [TypeError]). *)
Definition py_getitem (x : pyval) (key : string) : outcome pyval :=
  match x with
  | PDict d =>
      match d !! key with
      | Some v => Return v
      | None => Raise (KeyError key)
      end
  | _ => Raise TypeError
  end.

(** [x.get(key, default)]: only dictionaries have a [get] attribute. *)
Definition py_get (x : pyval) (key : string) (default : pyval) : outcome pyval :=
  match x with
  | PDict d =>
      match d !! key with
      | Some v => Return v
      | None => Return default
      end
  | _ => Raise AttributeError
  end.

(** [isinstance(x, dict)] *)
Definition isinstance_dict (x : pyval) : bool :=
  match x with
  | PDict _ => true
  | _ => false
  end.

Definition ascii_lower (c : ascii) : ascii :=
  let n := N_of_ascii c in
  if ((65 <=? n) && (n <=? 90))%N then ascii_of_N (n + 32) else c.

Definition ascii_upper (c : ascii) : ascii :=
  let n := N_of_ascii c in
  if ((97 <=? n) && (n <=? 122))%N then ascii_of_N (n - 32) else c.

Fixpoint str_lower (s : string) : string :=
  match s with
  | EmptyString => EmptyString
  | String c rest => String (ascii_lower c) (str_lower rest)
  end.

Definition is_byte (n : N) (c : ascii) : bool := (N_of_ascii c =? n)%N.

(** [s.upper()] on text held as UTF-8: the ASCII letters, and the two
    letters outside ASCII whose upper case is a single ASCII letter,
    U+0131 (dotless i, bytes 196 177, upper case "I") and U+017F (long s,
    bytes 197 191, upper case "S").  The other code points outside ASCII
    are left as they are, which Python does not always do; what is
    stated of [str_upper] is stated of ASCII text and of these two
    letters. *)
Fixpoint str_upper (s : string) : string :=
  match s with
  | EmptyString => EmptyString
  | String c rest =>
      match rest with
      | String c' rest' =>
          if is_byte 196 c && is_byte 177 c' then String "I" (str_upper rest')
          else if is_byte 197 c && is_byte 191 c' then String "S" (str_upper rest')
          else String (ascii_upper c) (str_upper rest)
      | EmptyString => String (ascii_upper c) EmptyString
      end
  end.

(** The text is ASCII: every byte is below 128. *)
Fixpoint str_is_ascii (s : string) : bool :=
  match s with
  | EmptyString => true
  | String c rest => (N_of_ascii c <? 128)%N && str_is_ascii rest
  end.

(** [x.lower()]: only strings have a [lower] attribute. *)
Definition py_lower (x : pyval) : outcome string :=
  match x with
  | PStr s => Return (str_lower s)
  | _ => Raise AttributeError
  end.

Fixpoint str_chars (s : string) : list pyval :=
  match s with
  | EmptyString => []
  | String c rest => PStr (String c EmptyString) :: str_chars rest
  end.

(** The elements a [for] loop visits: the items of a list, the keys of a
    dictionary, the one-character substrings of a string; the other values
    are not iterable. *)
Definition py_iter (x : pyval) : outcome (list pyval) :=
  match x with
  | PList items => Return items
  | PDict d => Return (PStr <$> (map_to_list d).*1)
  | PStr s => Return (str_chars s)
  | _ => Raise TypeError
  end.

(** [str(n)] for an integer *)
Definition str_of_int (n : Z) : string := NilZero.string_of_int (Z.to_int n).

(* ===================================================================== *)
(** ** Effects: a trace of events next to the outcome *)
(* ===================================================================== *)

Inductive loglevel : Type := DEBUG | INFO | WARNING | ERROR.

Inductive event : Type :=
  | Log (level : loglevel) (fmt : string) (args : list pyval)
  | Sleep (seconds : Z)
  | GetAssessment (repository tag : string)
  | PrintJson (d : gmap string pyval)
  | WriteJson (filename : string) (d : gmap string pyval).

Record Py (A : Type) : Type := mkPy { trace : list event; result : outcome A }.
Arguments mkPy {A} trace result.
Arguments trace {A} p.
Arguments result {A} p.

#[global] Instance Py_ret : MRet Py := fun A a => mkPy [] (Return a).
#[global] Instance Py_bind : MBind Py := fun A B f m =>
  match result m with
  | Return a => mkPy (trace m ++ trace (f a)) (result (f a))
  | Raise e => mkPy (trace m) (Raise e)
  end.

Definition lift {A : Type} (o : outcome A) : Py A := mkPy [] o.
Definition raise {A : Type} (e : pyexn) : Py A := mkPy [] (Raise e).
Definition emit (ev : event) : Py unit := mkPy [ev] (Return tt).

Definition log_debug (fmt : string) (args : list pyval) : Py unit := emit (Log DEBUG fmt args).
Definition log_info (fmt : string) (args : list pyval) : Py unit := emit (Log INFO fmt args).
Definition log_warning (fmt : string) (args : list pyval) : Py unit := emit (Log WARNING fmt args).
Definition log_error (fmt : string) (args : list pyval) : Py unit := emit (Log ERROR fmt args).
(** [log.exception] logs at level ERROR (the traceback is not modelled). *)
Definition log_exception (fmt : string) (args : list pyval) : Py unit := emit (Log ERROR fmt args).

(** [sys.exit(code)] *)
Definition sys_exit {A : Type} (code : Z) : Py A := raise (SystemExit code).

(* ===================================================================== *)
(** ** class ScanStatusCode(Enum) *)
(* ===================================================================== *)

Inductive ScanStatusCode : Type :=
  | Vulnerability
  | Malware
  | Secrets
  | Success
  | ScriptFailure.

Definition value (c : ScanStatusCode) : Z :=
  match c with
  | Vulnerability => 1
  | Malware => 2
  | Secrets => 3
  | Success => 0
  | ScriptFailure => 10
  end.

(* ===================================================================== *)
(** ** class ScanReport(dict) *)
(* ===================================================================== *)

(** A [ScanReport] is a dictionary; [self[key]] is the dictionary lookup
    ([ScanReport] defines no [__missing__]). *)
Abbreviation ScanReport := (gmap string pyval).

Definition vuln_str_key_1 : string := "Vulnerabilities".
Definition details_str_key : string := "Details".
Definition detect_str_key : string := "Detections".

Definition severity_high : string := "high".
Definition type_malware : string := "malware".
Definition type_secret : string := "secret".
Definition type_misconfig : string := "misconfiguration".
Definition type_cis : string := "cis".

Definition critical_score : Z := 2000.
Definition high_score : Z := 500.
Definition medium_score : Z := 100.
Definition low_score : Z := 20.

(** Lines 232-241 of [get_alerts_vuln]: the severity of one finding, from
    its [Details].  A lookup falls through to the next place when it
    yields [None]. *)
Definition resolve_severity (details : pyval) : outcome pyval :=
  if isinstance_dict details then
    severity ← py_get details "severity" PNone;
    severity ← (if is_None severity then
                  cvss_v3 ← py_get details "cvss_v3_score" (PDict ∅);
                  py_get cvss_v3 "severity" PNone
                else Return severity);
    (if is_None severity then
       cvss_v2 ← py_get details "cvss_v2_score" (PDict ∅);
       py_get cvss_v2 "severity" (PStr "")
     else Return severity)
  else Return (PStr "").

(** Lines 251-258: the four independent [if]s that add to the score. *)
Definition add_points (severity_lower : string) (vuln_score : Z) : Z :=
  let vuln_score :=
    if String.eqb severity_lower "low" then vuln_score + low_score else vuln_score in
  let vuln_score :=
    if String.eqb severity_lower "medium" then vuln_score + medium_score else vuln_score in
  let vuln_score :=
    if String.eqb severity_lower "high" then vuln_score + high_score else vuln_score in
  let vuln_score :=
    if String.eqb severity_lower "critical" then vuln_score + critical_score else vuln_score in
  vuln_score.

(** The body of the [for] loop of [get_alerts_vuln] (lines 228-258) for
    one element, returning the updated score.  [severity.lower()] is
    evaluated by each of the four [if]s; the first evaluation decides
    whether it raises. *)
Definition vuln_step (vulnerability : pyval) (vuln_score : Z) : Py Z :=
  vuln ← lift (py_getitem vulnerability "Vulnerability");
  cve ← lift (py_get vuln "CVEID" (PStr "CVE-unknown"));
  details ← lift (py_get vuln "Details" PNone);
  severity ← lift (resolve_severity details);
  product ← lift (py_get vuln "Product" (PDict ∅));
  affects ← lift (py_get product "PackageSource" product);
  log_warning "%-8s %-16s Vulnerability detected affecting %s" [severity; cve; affects];;
  severity_lower ← lift (py_lower severity);
  mret (add_points severity_lower vuln_score).

Fixpoint vuln_loop (vulnerabilities : list pyval) (vuln_score : Z) : Py Z :=
  match vulnerabilities with
  | [] => mret vuln_score
  | vulnerability :: rest =>
      vuln_score ← vuln_step vulnerability vuln_score;
      vuln_loop rest vuln_score
  end.

Definition get_alerts_vuln (self : ScanReport) : Py Z :=
  log_info "Searching for vulnerabilities in scan report..." [];;
  let vuln_score := 0 in
  vulnerabilities ← lift (py_getitem (PDict self) vuln_str_key_1);
  if negb (is_None vulnerabilities) then
    items ← lift (py_iter vulnerabilities);
    vuln_loop items vuln_score
  else mret vuln_score.

(** [detection["Detection"]["Type"].lower()], the expression the three
    detection scans evaluate inside their [try]. *)
Definition detection_type_lower (detection : pyval) : outcome string :=
  d ← py_getitem detection "Detection";
  ty ← py_getitem d "Type";
  py_lower ty.

(** The loop the three detection scans share, up to the test applied to
    the lowered type, the alert that is logged and the code assigned on a
    match.  [except KeyError: continue] skips the element; any other
    exception leaves the loop and the function; a match logs, assigns and
    [break]s. *)
Fixpoint detections_loop (is_match : string → bool) (alert : Py unit) (code : Z)
    (detections : list pyval) (det_code : Z) : Py Z :=
  match detections with
  | [] => mret det_code
  | detection :: rest =>
      match detection_type_lower detection with
      | Return ty =>
          if is_match ty then alert;; mret code
          else detections_loop is_match alert code rest det_code
      | Raise (KeyError _) => detections_loop is_match alert code rest det_code
      | Raise e => raise e
      end
  end.

(** The frame the three detection scans share: the opening log line,
    [det_code = 0], [self["Detections"]], the [None] test and the loop. *)
Definition scan_detections (opening : string) (is_match : string → bool)
    (alert : Py unit) (code : Z) (self : ScanReport) : Py Z :=
  log_info opening [];;
  let det_code := 0 in
  detections ← lift (py_getitem (PDict self) detect_str_key);
  if negb (is_None detections) then
    items ← lift (py_iter detections);
    detections_loop is_match alert code items det_code
  else mret det_code.

Definition get_alerts_malware (self : ScanReport) : Py Z :=
  scan_detections "Searching for malware in scan report..."
    (λ ty, String.eqb ty type_malware)
    (log_warning "Alert: Malware found" [])
    (value Malware) self.

Definition get_alerts_secrets (self : ScanReport) : Py Z :=
  scan_detections "Searching for leaked secrets in scan report..."
    (λ ty, String.eqb ty type_secret)
    (log_error "Alert: Leaked secrets detected" [])
    (value Secrets) self.

Definition get_alerts_misconfig (self : ScanReport) : Py Z :=
  scan_detections "Searching for misconfigurations in scan report..."
    (λ ty, String.eqb ty type_misconfig || String.eqb ty type_cis)
    (log_warning "Alert: Misconfiguration found" [])
    (value Success) self.

Definition status_code (self : ScanReport) : Py Z :=
  vuln_code ← get_alerts_vuln self;
  mal_code ← get_alerts_malware self;
  sec_code ← get_alerts_secrets self;
  mcfg_code ← get_alerts_misconfig self;
  mret (Z.lor (Z.lor (Z.lor vuln_code mal_code) sec_code) mcfg_code).

(** [export(filename)]: the write itself is the file system's business;
    [write_error] is what it raises, if anything. *)
Definition export (write_error : option pyexn) (self : ScanReport) (filename : string) : Py unit :=
  emit (WriteJson filename self);;
  match write_error with
  | Some e => raise e
  | None => mret tt
  end.

(* ===================================================================== *)
(** ** get_scanreport *)
(* ===================================================================== *)

(** What [falcon.get_assessment] hands back: [resp["status_code"]] and
    [resp["body"]], the latter a JSON object. *)
Record response : Type := mkResponse {
  resp_status_code : Z;
  resp_body : gmap string pyval
}.

(** [range(n)] *)
Definition py_range (n : Z) : list nat := seq 0 (Z.to_nat n).

(** The [for] loop of [get_scanreport]; [falcon count] is the answer of
    the scanning service to the call made in iteration [count].  The loop
    yields [Some report] when it is left by [return], [None] when the
    range is used up. *)
Fixpoint get_scanreport_loop (falcon : nat → response) (repo tag : string)
    (sleep_seconds : Z) (counts : list nat) : Py (option (gmap string pyval)) :=
  match counts with
  | [] => mret None
  | count :: rest =>
      emit (Sleep sleep_seconds);;
      log_debug "retry count %s" [PInt (Z.of_nat count)];;
      emit (GetAssessment repo tag);;
      let resp := falcon count in
      if negb (resp_status_code resp =? 200)%Z then
        log_info "Scan report is not ready yet, retrying in %s seconds" [PInt sleep_seconds];;
        get_scanreport_loop falcon repo tag sleep_seconds rest
      else mret (Some (resp_body resp))
  end.

Definition retry_message (retry_count : Z) : string :=
  ("Report was not completed after " ++ str_of_int retry_count
   ++ " retries. Use -R or --retry_count to increase the number of retries")%string.

Definition get_scanreport (falcon : nat → response) (repo tag : string)
    (retry_count : Z) : Py ScanReport :=
  log_info "Downloading Image Scan Report" [];;
  let sleep_seconds := 10 in
  returned ← get_scanreport_loop falcon repo tag sleep_seconds (py_range retry_count);
  match returned with
  | Some report => mret report
  | None => raise (RetryExhaustedError (retry_message retry_count))
  end.

(* ===================================================================== *)
(** ** main, from the download of the report on *)
(* ===================================================================== *)

(** The values [parse_args] returns that the modelled part of [main]
    reads.  [score] is the raw string of [--score_threshold]. *)
Record Args : Type := mkArgs {
  repo : string;
  tag : string;
  score : string;
  json_report : option string;
  retry_count : Z;
  plugin : bool
}.

(** The surroundings of the run: the scanning service, the builtin
    [int] applied to a string ([ValueError] when the string is no integer
    literal), and what writing the JSON export raises, if anything. *)
Record World : Type := mkWorld {
  falcon : nat → response;
  py_int : string → outcome Z;
  write_error : option pyexn
}.

(** Truth value of [json_report]: [None] and the empty string are false. *)
Definition truthy (x : option string) : bool :=
  match x with
  | Some s => negb (String.eqb s "")
  | None => false
  end.

(** Lines 554-584 of [main]: what happens to the downloaded report. *)
Definition main_report (a : Args) (w : World) (scan_report : ScanReport) : Py unit :=
  (if plugin a then emit (PrintJson scan_report);; sys_exit 0 else mret tt);;
  (if truthy (json_report a)
   then export (write_error w) scan_report (default "" (json_report a))
   else mret tt);;
  f_vuln_score ← get_alerts_vuln scan_report;
  f_secrets ← get_alerts_secrets scan_report;
  f_malware ← get_alerts_malware scan_report;
  get_alerts_misconfig scan_report;;
  if (f_secrets =? value Secrets)%Z then
    log_error "Exiting: Secrets found in container image" [];;
    sys_exit (value Secrets)
  else if (f_malware =? value Malware)%Z then
    log_error "Exiting: Malware found in container image" [];;
    sys_exit (value Malware)
  else
    threshold ← lift (py_int w (score a));
    if (f_vuln_score >=? threshold)%Z then
      log_error "Exiting: Vulnerability score threshold exceeded: '%s' out of '%s'"
        [PInt f_vuln_score; PStr (score a)];;
      sys_exit (value Vulnerability)
    else
      log_info "Vulnerability score threshold not met: '%s' out of '%s'"
        [PInt f_vuln_score; PStr (score a)];;
      sys_exit (value Success).

(** [try: body except ...]: [handler e] is the clause that catches [e],
    if there is one. *)
Definition try_except {A : Type} (body : Py A) (handler : pyexn → option (Py A)) : Py A :=
  match result body with
  | Return _ => body
  | Raise e =>
      match handler e with
      | Some h => mkPy (trace body ++ trace h) (result h)
      | None => body
      end
  end.

(** The three [except] clauses of [main], in order. *)
Definition main_handler (e : pyexn) : option (Py unit) :=
  match e with
  | APIError =>
      Some (log_exception "Unable to scan" [];; sys_exit (value ScriptFailure))
  | RetryExhaustedError _ =>
      Some (log_exception "Retries exhausted" [];; sys_exit (value ScriptFailure))
  | _ =>
      if is_Exception e
      then Some (log_exception "Unknown error" [];; sys_exit (value ScriptFailure))
      else None
  end.

(** [main] from line 550 on; argument parsing, the detection of the
    container runtime and the push of the image have happened. *)
Definition main (a : Args) (w : World) : Py unit :=
  try_except
    (scan_report ← get_scanreport (falcon w) (repo a) (tag a) (retry_count a);
     main_report a w scan_report)
    main_handler.

(** The exit status of the process: the code of [SystemExit], 0 when the
    program runs off its end, 1 for an exception nobody caught. *)
Definition exit_code {A : Type} (p : Py A) : Z :=
  match result p with
  | Return _ => 0
  | Raise (SystemExit code) => code
  | Raise _ => 1
  end.

(* ===================================================================== *)
(** ** Shapes of report entries, stated on the data *)
(* ===================================================================== *)

(** A detection the scans can read: a dictionary whose ["Detection"], when
    present, is a dictionary whose ["Type"], when present, is a string. *)
Definition typed_detection (detection : pyval) : bool :=
  match detection with
  | PDict e =>
      match e !! "Detection" with
      | None => true
      | Some (PDict t) =>
          match t !! "Type" with
          | None | Some (PStr _) => true
          | Some _ => false
          end
      | Some _ => false
      end
  | _ => false
  end.

(** The detection carries a string type whose lowercase form satisfies
    [is_match]. *)
Definition detection_is (is_match : string → bool) (detection : pyval) : bool :=
  match detection with
  | PDict e =>
      match e !! "Detection" with
      | Some (PDict t) =>
          match t !! "Type" with
          | Some (PStr s) => is_match (str_lower s)
          | _ => false
          end
      | _ => false
      end
  | _ => false
  end.

(** The detection has no type field: no ["Detection"] key, or no ["Type"]
    key below it. *)
Definition detection_without_type (detection : pyval) : bool :=
  match detection with
  | PDict e =>
      match e !! "Detection" with
      | None => true
      | Some (PDict t) => bool_decide (t !! "Type" = None)
      | Some _ => false
      end
  | _ => false
  end.

(** The detection has a type field that is not a string. *)
Definition detection_type_not_str (detection : pyval) : bool :=
  match detection with
  | PDict e =>
      match e !! "Detection" with
      | Some (PDict t) =>
          match t !! "Type" with
          | None | Some (PStr _) => false
          | Some _ => true
          end
      | _ => false
      end
  | _ => false
  end.

Definition is_malware (ty : string) : bool := String.eqb ty "malware".
Definition is_secret (ty : string) : bool := String.eqb ty "secret".
Definition is_misconfig (ty : string) : bool :=
  String.eqb ty "misconfiguration" || String.eqb ty "cis".

(** The value of a flag as Python reads it: the scan returned a non-zero
    code. *)
Definition flag_set (p : Py Z) : Prop := ∃ c, result p = Return c ∧ c ≠ 0.

(** The alert of a scan is among the logged records. *)
Definition alerted (p : Py Z) (level : loglevel) (msg : string) : Prop :=
  Log level msg [] ∈ trace p.

(** [x] is missing or a dictionary: what [d.get(key, {})] must yield for
    a following [.get] to work. *)
Definition absent_or_dict (x : option pyval) : bool :=
  match x with
  | None | Some (PDict _) => true
  | Some _ => false
  end.

(** The dictionary below a key, empty when the key is missing. *)
Definition sub_dict (x : option pyval) : gmap string pyval :=
  match x with
  | Some (PDict d) => d
  | _ => ∅
  end.

(** The three places a severity can stand in, in the order of the chain:
    [severity], [cvss_v3_score.severity], [cvss_v2_score.severity]. *)
Definition severity_candidates (details : gmap string pyval) : list (option pyval) :=
  [ details !! "severity";
    sub_dict (details !! "cvss_v3_score") !! "severity";
    sub_dict (details !! "cvss_v2_score") !! "severity" ].

(** The first candidate that is present and not [None]; the empty string
    when there is none. *)
Fixpoint first_not_None (candidates : list (option pyval)) : pyval :=
  match candidates with
  | [] => PStr ""
  | Some v :: rest => if is_None v then first_not_None rest else v
  | None :: rest => first_not_None rest
  end.

(** The chain read as "first non-empty value wins": a candidate counts
    when it is present, not [None] and not the empty string. *)
Fixpoint first_non_empty (candidates : list (option pyval)) : pyval :=
  match candidates with
  | [] => PStr ""
  | Some (PStr s) :: rest => if String.eqb s "" then first_non_empty rest else PStr s
  | Some v :: rest => if is_None v then first_non_empty rest else v
  | None :: rest => first_non_empty rest
  end.

(** The [Details] whose severity the chain resolves to a string: each
    place that is consulted holds a string or nothing, and the
    [cvss_v3_score] and [cvss_v2_score] that are consulted are
    dictionaries or missing.  A [None] in the last place is not
    replaced by anything and is no string. *)
Definition typed_details (details : pyval) : bool :=
  match details with
  | PDict dd =>
      match dd !! "severity" with
      | Some (PStr _) => true
      | Some PNone | None =>
          absent_or_dict (dd !! "cvss_v3_score") &&
          match sub_dict (dd !! "cvss_v3_score") !! "severity" with
          | Some (PStr _) => true
          | Some PNone | None =>
              absent_or_dict (dd !! "cvss_v2_score") &&
              match sub_dict (dd !! "cvss_v2_score") !! "severity" with
              | Some (PStr _) | None => true
              | Some _ => false
              end
          | Some _ => false
          end
      | Some _ => false
      end
  | _ => true
  end.

(** A vulnerability entry the scoring loop can read: a dictionary with a
    ["Vulnerability"] dictionary inside, whose ["Product"] is a dictionary
    or missing and whose ["Details"] satisfy [typed_details]. *)
Definition typed_finding (vulnerability : pyval) : bool :=
  match vulnerability with
  | PDict e =>
      match e !! "Vulnerability" with
      | Some (PDict vd) =>
          absent_or_dict (vd !! "Product") &&
          typed_details (default PNone (vd !! "Details"))
      | _ => false
      end
  | _ => false
  end.

(** The [Details] of an entry, [None] when there are none. *)
Definition finding_details (vulnerability : pyval) : pyval :=
  match vulnerability with
  | PDict e =>
      match e !! "Vulnerability" with
      | Some (PDict vd) => default PNone (vd !! "Details")
      | _ => PNone
      end
  | _ => PNone
  end.

(** The severity label of [Details]: the first candidate that is present
    and not [None] when the details are a dictionary, the empty string
    otherwise. *)
Definition details_severity (details : pyval) : pyval :=
  match details with
  | PDict dd => first_not_None (severity_candidates dd)
  | _ => PStr ""
  end.

Definition str_of (v : pyval) : string :=
  match v with
  | PStr s => s
  | _ => ""
  end.

Definition finding_label (vulnerability : pyval) : string :=
  str_of (details_severity (finding_details vulnerability)).

(** The table of points, on the label without regard to case. *)
Definition severity_points (label : string) : Z :=
  let l := str_lower label in
  if String.eqb l "low" then 20
  else if String.eqb l "medium" then 100
  else if String.eqb l "high" then 500
  else if String.eqb l "critical" then 2000
  else 0.

Definition total_points (labels : list string) : Z :=
  foldr Z.add 0 (severity_points <$> labels).

(** A finding that states its severity directly, and a report made of
    such findings and no detections. *)
Definition finding (severity : string) : pyval :=
  PDict {[ "Vulnerability" :=
    PDict {[ "CVEID" := PStr "CVE-1";
             "Details" := PDict {[ "severity" := PStr severity ]} ]} ]}.

Definition report_of (severities : list string) : ScanReport :=
  {[ "Vulnerabilities" := PList (finding <$> severities);
     "Detections" := PList [] ]}.

(** The events of a trace that are not log records. *)
Definition io_events (tr : list event) : list event :=
  List.filter (λ ev, match ev with Log _ _ _ => false | _ => true end) tr.

(** The download of the run handed [self] to [main]. *)
Definition fetched (a : Args) (w : World) (self : ScanReport) : Prop :=
  result (get_scanreport (falcon w) (repo a) (tag a) (retry_count a)) = Return self.

(** The JSON export, when one is asked for, raises nothing. *)
Definition export_succeeds (a : Args) (w : World) : Prop :=
  truthy (json_report a) = true → write_error w = None.

(** Sample runs: a scanning service that answers 200 with [self] at the
    first call, an [int] that reads the literal "500", no export. *)
Definition sample_world (self : ScanReport) : World :=
  mkWorld (λ _, mkResponse 200 self)
          (λ s, if String.eqb s "500" then Return 500 else Raise ValueError)
          None.

Definition sample_args : Args := mkArgs "repo" "latest" "500" None 100 false.

Definition detection (type : pyval) : pyval :=
  PDict {[ "Detection" := PDict {[ "Type" := type ]} ]}.

Definition sample_both : ScanReport :=
  {[ "Vulnerabilities" := PList [finding "critical"];
     "Detections" := PList [detection (PStr "Malware"); detection (PStr "Secret")] ]}.

(** A report with no ["Vulnerabilities"] key. *)
Definition report_without_vulnerabilities : ScanReport :=
  {[ "Detections" := PList [] ]}.

(** A report whose only detection is a misconfiguration. *)
Definition report_misconfigured : ScanReport :=
  {[ "Vulnerabilities" := PList [];
     "Detections" := PList [detection (PStr "Misconfiguration")] ]}.

(** Details whose direct severity is the empty string while
    [cvss_v3_score] says "high", and a report with one such finding. *)
Definition details_empty_then_high : gmap string pyval :=
  {[ "severity" := PStr "";
     "cvss_v3_score" := PDict {[ "severity" := PStr "high" ]} ]}.

Definition report_empty_then_high : ScanReport :=
  {[ "Vulnerabilities" :=
       PList [PDict {[ "Vulnerability" :=
                PDict {[ "Details" := PDict details_empty_then_high ]} ]}];
     "Detections" := PList [] ]}.

(** A report whose only vulnerability entry lacks the ["Vulnerability"]
    wrapper. *)
Definition report_bare_entry : ScanReport :=
  {[ "Vulnerabilities" := PList [PDict ∅];
     "Detections" := PList [] ]}.

(** A report whose only detection has a number as its type. *)
Definition report_numeric_type : ScanReport :=
  {[ "Vulnerabilities" := PList [];
     "Detections" := PList [detection (PInt 7)] ]}.

(** A report whose only finding has a number as its severity. *)
Definition report_numeric_severity : ScanReport :=
  {[ "Vulnerabilities" :=
       PList [PDict {[ "Vulnerability" :=
                PDict {[ "Details" := PDict {[ "severity" := PInt 7 ]} ]} ]}];
     "Detections" := PList [] ]}.

(** A scanning service that is never ready. *)
Definition never_ready : nat → response := λ _, mkResponse 404 ∅.

(* ===================================================================== *)
(** ** class EnvDefault(argparse.Action) *)
(* ===================================================================== *)

(** [EnvDefault.__init__]: the [default] and [required] it hands on to
    [argparse.Action.__init__], from [os.environ], the name of the
    variable and the [required] and [default] it was given.  A value in
    the environment replaces the default; an option that is required and
    has a true default stops being required. *)
Definition EnvDefault_init (env : gmap string string) (envvar : string)
    (required : bool) (default : option string) : option string * bool :=
  let default :=
    match env !! envvar with
    | Some v => Some v
    | None => default
    end in
  let required := if required && truthy default then false else required in
  (default, required).

(** One [add_argument(..., action=EnvDefault, ...)] of [parse_args]: the
    [dest], the [envvar], and the [default] and [required] keywords
    ([default=None] and [required=True] where the call gives none). *)
Record EnvOption : Type := mkEnvOption {
  opt_dest : string;
  opt_envvar : string;
  opt_default : option string;
  opt_required : bool
}.

(** The options of [parse_args] whose action is [EnvDefault], in the
    order of the calls. *)
Definition parse_args_env_options : list EnvOption :=
  [ mkEnvOption "client_id" "FALCON_CLIENT_ID" None true;
    mkEnvOption "repo" "CONTAINER_REPO" None true;
    mkEnvOption "tag" "CONTAINER_TAG" (Some "latest") true;
    mkEnvOption "cloud" "FALCON_CLOUD_REGION" (Some "us-1") true;
    mkEnvOption "score" "SCORE" (Some "500") true;
    mkEnvOption "report" "JSON_REPORT" None false;
    mkEnvOption "log_level" "LOG_LEVEL" (Some "INFO") false;
    mkEnvOption "retry_count" "RETRY_COUNT" (Some "100") true ].

(** What [EnvDefault.__init__] makes of an option under [env]. *)
Definition option_init (env : gmap string string) (o : EnvOption) : option string * bool :=
  EnvDefault_init env (opt_envvar o) (opt_required o) (opt_default o).

(* ===================================================================== *)
(** ** detect_container_runtime *)
(* ===================================================================== *)

(** The exceptions this function tells apart: [ImportError],
    [docker.errors.APIError] and [docker.errors.DockerException],
    [ConnectionRefusedError], [podman.errors.exceptions.APIError], the
    [RuntimeError] it raises itself, and any other exception. *)
Inductive runtime_exn : Type :=
  | ImportError
  | DockerAPIError
  | DockerException
  | ConnectionRefusedError
  | PodmanAPIError
  | RuntimeError (message : string)
  | OtherRuntimeError (name : string).

(** The machine the program runs on, as far as this function looks at
    it: what each of the six steps raises, [None] when it succeeds.  A
    step that is run twice raises the same both times. *)
Record Host : Type := mkHost {
  import_docker : option runtime_exn;
  docker_from_env : option runtime_exn;
  docker_ping : option runtime_exn;
  import_podman : option runtime_exn;
  podman_from_env : option runtime_exn;
  podman_ping : option runtime_exn
}.

Inductive runtime_outcome : Type :=
  | Runtime (name : string)
  | RuntimeRaise (e : runtime_exn).

Definition podman_socket_message : string :=
  ("Could not connect to Podman socket. " ++
   "If running rootless, ensure your podman.socket is running (systemctl --user start podman.socket). " ++
   "If running as root, ensure the CONTAINER_HOST environment variable is set correctly " ++
   "(e.g. unix:///var/run/podman/podman.sock).")%string.

Definition neither_message : string :=
  "Neither Docker nor Podman client libraries are available".

(** The block the function contains twice: [import podman], [from_env],
    a [ping] whose [ConnectionRefusedError] and podman [APIError] become
    a [RuntimeError], [return client, "podman"]. *)
Definition podman_block (h : Host) : runtime_outcome :=
  match import_podman h with
  | Some e => RuntimeRaise e
  | None =>
      match podman_from_env h with
      | Some e => RuntimeRaise e
      | None =>
          match podman_ping h with
          | Some ConnectionRefusedError | Some PodmanAPIError =>
              RuntimeRaise (RuntimeError podman_socket_message)
          | Some e => RuntimeRaise e
          | None => Runtime "podman"
          end
      end
  end.

(** The body of the outer [try]: docker first; podman inside the handler
    of the docker errors. *)
Definition docker_block (h : Host) : runtime_outcome :=
  match import_docker h with
  | Some e => RuntimeRaise e
  | None =>
      let connect :=
        match docker_from_env h with
        | Some e => Some e
        | None => docker_ping h
        end in
      match connect with
      | None => Runtime "docker"
      | Some DockerAPIError | Some DockerException => podman_block h
      | Some e => RuntimeRaise e
      end
  end.

(** The outer [except ImportError] catches an [ImportError] from anywhere
    in the body, the podman block in the docker handler included; its
    own [try] turns a second [ImportError] into a [RuntimeError]. *)
Definition detect_container_runtime (h : Host) : runtime_outcome :=
  match docker_block h with
  | RuntimeRaise ImportError =>
      match podman_block h with
      | RuntimeRaise ImportError => RuntimeRaise (RuntimeError neither_message)
      | r => r
      end
  | r => r
  end.

(** What connecting to docker raises: [from_env] first, then [ping]. *)
Definition docker_connect (h : Host) : option runtime_exn :=
  match docker_from_env h with
  | Some e => Some e
  | None => docker_ping h
  end.

(** The docker errors that make the function turn to podman. *)
Definition is_docker_error (e : runtime_exn) : bool :=
  match e with
  | DockerAPIError | DockerException => true
  | _ => false
  end.

(* ===================================================================== *)
(** ** ScanImage.container_push, one run of its body *)
(* ===================================================================== *)

(** [key in x]: a key of a dictionary, an element of a list, a substring
    of a string; the other values are no containers. *)
Fixpoint str_contains (needle hay : string) : bool :=
  String.prefix needle hay ||
  match hay with
  | EmptyString => false
  | String _ rest => str_contains needle rest
  end.

Definition py_eq_str (x : pyval) (s : string) : bool :=
  match x with
  | PStr t => String.eqb t s
  | _ => false
  end.

Definition py_contains (key : string) (x : pyval) : outcome bool :=
  match x with
  | PDict d => Return (bool_decide (is_Some (d !! key)))
  | PList items => Return (existsb (λ v, py_eq_str v key) items)
  | PStr s => Return (str_contains key s)
  | _ => Raise TypeError
  end.

(** [prefix + x] for a string [prefix]: [x] must be a string. *)
Definition py_str_add (prefix : string) (x : pyval) : outcome string :=
  match x with
  | PStr s => Return (prefix ++ s)%string
  | _ => Raise TypeError
  end.

(** [s.capitalize()] *)
Definition str_capitalize (s : string) : string :=
  match s with
  | EmptyString => EmptyString
  | String c rest => String (ascii_upper c) (str_lower rest)
  end.

(** What can leave the body of [container_push]: the [APIError] it
    raises itself, with its status, or an exception from below. *)
Inductive push_exn : Type :=
  | PushAPIError (status : string)
  | PushRaised (e : pyexn).

Inductive push_event : Type :=
  | PushInfo (fmt : string) (args : list pyval)
  | PushDebug (line : pyval)
  | PushPrint (progress : list pyval)
  | PushCall (image_str : string)
  | PushFailed (e : push_exn).

(** What [client.images.push(..., stream=True)] yields: the lines, and
    the exception that ends the stream if one does (a call that fails at
    once has no lines). *)
Record PushStream : Type := mkPushStream {
  stream_lines : list pyval;
  stream_error : option pyexn
}.

(** Lines 140-156, the body of the [for] loop for one line: the events
    and the exception it raises, if any.  [json_loads] is [json.loads]. *)
Definition push_line (json_loads : string → outcome pyval) (runtime : string)
    (line : pyval) : list push_event * option push_exn :=
  let decoded :=
    match line with
    | PStr s => json_loads s
    | _ => Return line
    end in
  match decoded with
  | Raise e => ([], Some (PushRaised e))
  | Return line =>
      match py_contains "error" line with
      | Raise e => ([], Some (PushRaised e))
      | Return true =>
          match py_getitem line "error" ≫= py_str_add "container_push " with
          | Raise e => ([], Some (PushRaised e))
          | Return status => ([], Some (PushAPIError status))
          end
      | Return false =>
          match py_contains "status" line with
          | Raise e => ([], Some (PushRaised e))
          | Return false => ([PushDebug line], None)
          | Return true =>
              match py_getitem line "status" with
              | Raise e => ([], Some (PushRaised e))
              | Return status =>
                  if py_eq_str status "Pushing" then
                    match (progress ← py_get line "progress" PNone;
                           details ← py_get line "progressDetails" PNone;
                           Return [progress; details]) with
                    | Raise e => ([], Some (PushRaised e))
                    | Return shown => ([PushPrint shown], None)
                    end
                  else ([PushInfo "%s: %s" [PStr (str_capitalize runtime); status]], None)
              end
          end
      end
  end.

(** The [for] loop over the stream. *)
Fixpoint push_loop (json_loads : string → outcome pyval) (runtime : string)
    (lines : list pyval) (ending : option pyexn) : list push_event * option push_exn :=
  match lines with
  | [] => ([], PushRaised <$> ending)
  | line :: rest =>
      match push_line json_loads runtime line with
      | (events, Some e) => (events, Some e)
      | (events, None) =>
          let (more, raised) := push_loop json_loads runtime rest ending in
          (events ++ more, raised)
      end
  end.

Definition is_push_Exception (e : push_exn) : bool :=
  match e with
  | PushAPIError _ => true
  | PushRaised e => is_Exception e
  end.

(** The body of [container_push] (the [@retry] decorator of tenacity,
    which runs the body again after an exception, is not part of it): the
    events of one run and the exception that leaves it, if any. *)
Definition container_push (json_loads : string → outcome pyval)
    (runtime server_domain repo tag : string) (stream : PushStream)
    : list push_event * option push_exn :=
  let image_str := (server_domain ++ "/" ++ repo ++ ":" ++ tag)%string in
  let (events, raised) :=
    push_loop json_loads runtime (stream_lines stream) (stream_error stream) in
  let events :=
    PushInfo "Performing container push to %s" [PStr image_str]
    :: PushCall image_str :: events in
  match raised with
  | Some e => if is_push_Exception e then (events ++ [PushFailed e], Some e)
              else (events, Some e)
  | None => (events, None)
  end.

(** A line that is a dictionary without the ["error"] key. *)
Definition progress_line (line : pyval) : bool :=
  match line with
  | PDict d => bool_decide (d !! "error" = None)
  | _ => false
  end.

(** The label "high" written with U+0131, the dotless i, in place of
    the "i" (in UTF-8 the bytes 196 177). *)
Definition dotless_high : string :=
  String "h" (String (ascii_of_N 196) (String (ascii_of_N 177) "gh")).

(** A report with a secret, a malware detection and then a detection
    whose type is a number; and the same report with a "cis" detection
    put in front. *)
Definition report_secret_malware_number : ScanReport :=
  {[ "Vulnerabilities" := PList [];
     "Detections" := PList [detection (PStr "secret"); detection (PStr "malware");
                            detection (PInt 7)] ]}.

Definition report_cis_secret_malware_number : ScanReport :=
  {[ "Vulnerabilities" := PList [];
     "Detections" := PList [detection (PStr "cis"); detection (PStr "secret");
                            detection (PStr "malware"); detection (PInt 7)] ]}.

(* ===================================================================== *)
(** ** Laws of the effect layer *)
(* ===================================================================== *)

Lemma result_bind {A B : Type} (m : Py A) (f : A → Py B) :
  result (m ≫= f) =
  match result m with
  | Return a => result (f a)
  | Raise e => Raise e
  end.
Proof. unfold mbind, Py_bind. by destruct (result m). Qed.

Lemma trace_bind {A B : Type} (m : Py A) (f : A → Py B) :
  trace (m ≫= f) =
  match result m with
  | Return a => trace m ++ trace (f a)
  | Raise e => trace m
  end.
Proof. unfold mbind, Py_bind. by destruct (result m). Qed.

Lemma bind_Return {A B : Type} (m : Py A) (f : A → Py B) (a : A) :
  result m = Return a →
  m ≫= f = mkPy (trace m ++ trace (f a)) (result (f a)).
Proof. intros H. unfold mbind, Py_bind. by rewrite H. Qed.

Lemma bind_Raise {A B : Type} (m : Py A) (f : A → Py B) (e : pyexn) :
  result m = Raise e →
  m ≫= f = mkPy (trace m) (Raise e).
Proof. intros H. unfold mbind, Py_bind. by rewrite H. Qed.

Lemma Py_eta {A : Type} (p : Py A) : mkPy (trace p) (result p) = p.
Proof. by destruct p. Qed.

Lemma bind_emit {B : Type} (ev : event) (k : Py B) :
  emit ev ≫= (λ _, k) = mkPy (ev :: trace k) (result k).
Proof. reflexivity. Qed.

Lemma bind_lift_Return {A B : Type} (a : A) (f : A → Py B) :
  lift (Return a) ≫= f = f a.
Proof. unfold mbind, Py_bind, lift. simpl. apply Py_eta. Qed.

Lemma bind_lift_Raise {A B : Type} (e : pyexn) (f : A → Py B) :
  lift (Raise e) ≫= f = raise e.
Proof. reflexivity. Qed.

(* ===================================================================== *)
(** ** The detection scans *)
(* ===================================================================== *)

(** What the expression in the [try] evaluates to, by the shape of the
    entry. *)
Lemma detection_type_lower_typed (detection : pyval) :
  typed_detection detection = true →
  (detection_without_type detection = true ∧
     (∀ is_match, detection_is is_match detection = false) ∧
     ∃ k, detection_type_lower detection = Raise (KeyError k)) ∨
  (∃ s, detection_type_lower detection = Return (str_lower s) ∧
        ∀ is_match, detection_is is_match detection = is_match (str_lower s)).
Proof.
  destruct detection as [ | | | | |l|e]; try done. simpl.
  unfold detection_type_lower. simpl.
  destruct (e !! "Detection") as [[ | | | | |l|t]|] eqn:He; try done; simpl.
  - destruct (t !! "Type") as [[ | | | |s|l|t']|] eqn:Ht; try done; simpl.
    + intros _. right. by exists s.
    + intros _. left. split_and!; [done|done|by eexists].
  - intros _. left. split_and!; [done|done|by eexists].
Qed.

Lemma detection_is_type_lower (is_match : string → bool) (detection : pyval) :
  detection_is is_match detection = true →
  ∃ ty, detection_type_lower detection = Return ty ∧ is_match ty = true.
Proof.
  destruct detection as [ | | | | |l|e]; try done. simpl.
  unfold detection_type_lower. simpl.
  destruct (e !! "Detection") as [[ | | | | |l|t]|]; try done; simpl.
  destruct (t !! "Type") as [[ | | | |s|l|t']|]; try done; simpl.
  intros H. by exists (str_lower s).
Qed.

Lemma detection_type_not_str_raises (detection : pyval) :
  detection_type_not_str detection = true →
  detection_type_lower detection = Raise AttributeError.
Proof.
  destruct detection as [ | | | | |l|e]; try done. simpl.
  unfold detection_type_lower. simpl.
  destruct (e !! "Detection") as [[ | | | | |l|t]|]; try done; simpl.
  by destruct (t !! "Type") as [[ | | | |s|l|t']|].
Qed.

Section detections_loop.
Variable is_match : string → bool.
Variable alert : Py unit.
Variable code : Z.
Hypothesis alert_returns : result alert = Return tt.

Local Abbreviation loop := (detections_loop is_match alert code).

(** Whenever the loop returns, it returns [code] if some entry matches
    and the initial [det_code] otherwise. *)
Lemma detections_loop_returns (detections : list pyval) (det_code r : Z) :
  result (loop detections det_code) = Return r →
  r = if existsb (detection_is is_match) detections then code else det_code.
Proof.
  induction detections as [|d rest IH]; simpl.
  - by intros [= <-].
  - destruct (detection_is is_match d) eqn:Hd; simpl.
    + apply detection_is_type_lower in Hd as (ty & -> & ->).
      rewrite result_bind, alert_returns. by intros [= <-].
    + destruct (detection_type_lower d) as [ty|ex] eqn:Hty.
      * destruct (is_match ty) eqn:Hm; [|done].
        rewrite result_bind, alert_returns. intros [= <-].
        (* a match the data does not show cannot happen *)
        exfalso. clear IH.
        destruct d as [ | | | | |l|e]; try done.
        unfold detection_type_lower in Hty. simpl in *.
        destruct (e !! "Detection") as [[ | | | | |l|t]|]; try done; simpl in *.
        destruct (t !! "Type") as [[ | | | |s|l|t']|]; try done; simpl in *.
        congruence.
      * destruct ex; try done.
Qed.

(** On entries of the expected shape the loop returns, and logs the
    alert exactly when some entry matches. *)
Lemma detections_loop_typed (detections : list pyval) (det_code : Z) :
  forallb typed_detection detections = true →
  loop detections det_code =
  if existsb (detection_is is_match) detections
  then mkPy (trace alert) (Return code)
  else mkPy [] (Return det_code).
Proof.
  induction detections as [|d rest IH]; simpl; [done|].
  intros [Hd Hrest]%andb_prop.
  destruct (detection_type_lower_typed d Hd) as [(_ & Hno & k & ->)|(s & -> & Hs)].
  - rewrite Hno. by apply IH.
  - rewrite Hs. destruct (is_match (str_lower s)); simpl; [|by apply IH].
    rewrite (bind_Return alert _ tt alert_returns). simpl.
    by rewrite app_nil_r.
Qed.

(** The loop stops at the first match: what follows it is not looked
    at, whatever it is. *)
Lemma detections_loop_first_match (before after : list pyval) (d : pyval) (det_code : Z) :
  forallb typed_detection before = true →
  existsb (detection_is is_match) before = false →
  detection_is is_match d = true →
  loop (before ++ d :: after) det_code = mkPy (trace alert) (Return code).
Proof.
  intros Hty Hno Hd.
  induction before as [|b before IH]; simpl in *.
  - apply detection_is_type_lower in Hd as (ty & -> & ->).
    rewrite (bind_Return alert _ tt alert_returns). simpl.
    by rewrite app_nil_r.
  - apply andb_prop in Hty as [Hb Hty].
    apply orb_false_elim in Hno as [Hnb Hno].
    destruct (detection_type_lower_typed b Hb) as [(_ & _ & k & ->)|(s & -> & Hs)].
    + by apply IH.
    + rewrite <- Hs, Hnb. by apply IH.
Qed.

(** An entry whose type is not a string ends the loop with
    [AttributeError] when no entry before it matches. *)
Lemma detections_loop_not_str (before after : list pyval) (d : pyval) (det_code : Z) :
  forallb typed_detection before = true →
  existsb (detection_is is_match) before = false →
  detection_type_not_str d = true →
  loop (before ++ d :: after) det_code = mkPy [] (Raise AttributeError).
Proof.
  intros Hty Hno Hd.
  induction before as [|b before IH]; simpl in *.
  - by rewrite (detection_type_not_str_raises d Hd).
  - apply andb_prop in Hty as [Hb Hty].
    apply orb_false_elim in Hno as [Hnb Hno].
    destruct (detection_type_lower_typed b Hb) as [(_ & _ & k & ->)|(s & -> & Hs)].
    + by apply IH.
    + rewrite <- Hs, Hnb. by apply IH.
Qed.
End detections_loop.

Section scan_detections.
Variable opening : string.
Variable is_match : string → bool.
Variable alert : Py unit.
Variable code : Z.
Hypothesis alert_returns : result alert = Return tt.

Local Abbreviation scan := (scan_detections opening is_match alert code).

Lemma scan_detections_absent (self : ScanReport) :
  self !! "Detections" = None →
  scan self = mkPy [Log INFO opening []] (Raise (KeyError "Detections")).
Proof.
  intros H. unfold scan_detections, py_getitem, detect_str_key. by rewrite H.
Qed.

Lemma scan_detections_null (self : ScanReport) :
  self !! "Detections" = Some PNone →
  scan self = mkPy [Log INFO opening []] (Return 0).
Proof.
  intros H. unfold scan_detections, py_getitem, detect_str_key. by rewrite H.
Qed.

Lemma scan_detections_list (self : ScanReport) (detections : list pyval) :
  self !! "Detections" = Some (PList detections) →
  scan self =
  mkPy (Log INFO opening [] :: trace (detections_loop is_match alert code detections 0))
       (result (detections_loop is_match alert code detections 0)).
Proof.
  intros H. unfold scan_detections, py_getitem, detect_str_key. by rewrite H.
Qed.

(** A scan that returns, whatever the report, returns its code or 0. *)
Lemma scan_detections_returns (self : ScanReport) (r : Z) :
  result (scan self) = Return r → r = code ∨ r = 0.
Proof.
  unfold scan_detections, py_getitem, detect_str_key.
  destruct (self !! "Detections") as [v|]; [|done].
  destruct (is_None v) eqn:Hv; cbn; rewrite Hv; cbn; [intros [= <-]; by right|].
  destruct (py_iter v) as [items|e]; [|done]. cbn. intros Hr.
  apply (detections_loop_returns _ _ _ alert_returns) in Hr.
  destruct (existsb _ _); auto.
Qed.

(** On a list of entries of the expected shape the scan returns, with
    its code exactly when an entry matches, and then with its alert
    logged once. *)
Lemma scan_detections_typed (self : ScanReport) (detections : list pyval) :
  self !! "Detections" = Some (PList detections) →
  forallb typed_detection detections = true →
  scan self =
  if existsb (detection_is is_match) detections
  then mkPy (Log INFO opening [] :: trace alert) (Return code)
  else mkPy [Log INFO opening []] (Return 0).
Proof.
  intros H Hty. rewrite (scan_detections_list _ _ H).
  rewrite (detections_loop_typed _ _ _ alert_returns _ _ Hty).
  by destruct (existsb _ _).
Qed.

Lemma scan_detections_first_match (self : ScanReport) (before after : list pyval) (d : pyval) :
  self !! "Detections" = Some (PList (before ++ d :: after)) →
  forallb typed_detection before = true →
  existsb (detection_is is_match) before = false →
  detection_is is_match d = true →
  scan self = mkPy (Log INFO opening [] :: trace alert) (Return code).
Proof.
  intros H Hty Hno Hd. rewrite (scan_detections_list _ _ H).
  by rewrite (detections_loop_first_match _ _ _ alert_returns _ _ _ _ Hty Hno Hd).
Qed.

Lemma scan_detections_not_str (self : ScanReport) (before after : list pyval) (d : pyval) :
  self !! "Detections" = Some (PList (before ++ d :: after)) →
  forallb typed_detection before = true →
  existsb (detection_is is_match) before = false →
  detection_type_not_str d = true →
  scan self = mkPy [Log INFO opening []] (Raise AttributeError).
Proof.
  intros H Hty Hno Hd. rewrite (scan_detections_list _ _ H).
  by rewrite (detections_loop_not_str _ _ _ _ _ _ _ Hty Hno Hd).
Qed.
End scan_detections.

Lemma detection_without_type_typed (d : pyval) :
  detection_without_type d = true →
  typed_detection d = true ∧ ∀ is_match, detection_is is_match d = false.
Proof.
  destruct d as [ | | | | |l|e]; try done. simpl.
  destruct (e !! "Detection") as [[ | | | | |l|t]|]; try done.
  intros ->%bool_decide_eq_true. done.
Qed.

Lemma forallb_without_type (l : list pyval) :
  forallb detection_without_type l = true →
  forallb typed_detection l = true ∧
  ∀ is_match, existsb (detection_is is_match) l = false.
Proof.
  induction l as [|d l IH]; simpl; [done|].
  intros [Hd Hl]%andb_prop.
  destruct (detection_without_type_typed d Hd) as [-> Hno].
  destruct (IH Hl) as [-> Hex]. split; [done|].
  intros f. by rewrite Hno, Hex.
Qed.

Lemma existsb_Exists_is (f : string → bool) (l : list pyval) :
  existsb (detection_is f) l = true ↔ ∃ d, d ∈ l ∧ detection_is f d = true.
Proof.
  rewrite existsb_exists. setoid_rewrite list_elem_of_In. done.
Qed.

(* ===================================================================== *)
(** ** Severity resolution and scoring *)
(* ===================================================================== *)

Ltac case_lookup :=
  match goal with
  | |- context [?d !! ?k] =>
      let E := fresh "E" in
      destruct (d !! k) as [[ | | | | | | ]|] eqn:E
  end.

Lemma resolve_severity_typed (details : pyval) :
  typed_details details = true →
  resolve_severity details = Return (details_severity details) ∧
  ∃ s, details_severity details = PStr s.
Proof.
  destruct details as [ | | | | | |dd]; try (intros _; split; [done|by eexists]).
  unfold resolve_severity, details_severity, severity_candidates, typed_details.
  simpl.
  repeat (case_lookup; simpl; try done; try (intros _; split; [done|by eexists])).
Qed.

Lemma resolve_severity_str (details : pyval) (s : string) :
  resolve_severity details = Return (PStr s) → typed_details details = true.
Proof.
  destruct details as [ | | | | | |dd]; try done.
  unfold resolve_severity, typed_details. simpl.
  repeat (case_lookup; simpl; try done).
Qed.

Lemma add_points_spec (s : string) (vuln_score : Z) :
  add_points (str_lower s) vuln_score = vuln_score + severity_points s.
Proof.
  unfold add_points, severity_points, low_score, medium_score, high_score, critical_score.
  cbv zeta. generalize (str_lower s) as l. intros l.
  destruct (String.eqb_spec l "low") as [->|]; [simpl; lia|].
  destruct (String.eqb_spec l "medium") as [->|]; [simpl; lia|].
  destruct (String.eqb_spec l "high") as [->|]; [simpl; lia|].
  destruct (String.eqb_spec l "critical") as [->|]; simpl; lia.
Qed.

(** The outcome of one turn of the loop, without its log record. *)
Lemma vuln_step_result (vulnerability : pyval) (vuln_score : Z) :
  result (vuln_step vulnerability vuln_score) =
  (vuln ← py_getitem vulnerability "Vulnerability";
   _ ← py_get vuln "CVEID" (PStr "CVE-unknown");
   details ← py_get vuln "Details" PNone;
   severity ← resolve_severity details;
   product ← py_get vuln "Product" (PDict ∅);
   _ ← py_get product "PackageSource" product;
   severity_lower ← py_lower severity;
   Return (add_points severity_lower vuln_score)).
Proof.
  unfold vuln_step.
  repeat (match goal with
          | |- context [lift ?o] => destruct o; cbn; try done
          | |- context [match ?o with Return _ => _ | Raise _ => _ end] =>
              destruct o; cbn; try done
          end).
Qed.

Lemma vuln_step_typed (vulnerability : pyval) (vuln_score : Z) :
  typed_finding vulnerability = true →
  result (vuln_step vulnerability vuln_score) =
  Return (vuln_score + severity_points (finding_label vulnerability)).
Proof.
  rewrite vuln_step_result.
  destruct vulnerability as [ | | | | | |e]; try done.
  unfold typed_finding, finding_label, finding_details. simpl.
  destruct (e !! "Vulnerability") as [[ | | | | | |vd]|]; try done.
  intros [Hp Hd]%andb_prop.
  destruct (resolve_severity_typed _ Hd) as [Hr [s Hs]].
  rewrite Hs in Hr |- *. simpl str_of. rewrite <- add_points_spec. clear Hs Hd.
  cbn. destruct (vd !! "CVEID") as [cve|]; cbn.
  all: destruct (vd !! "Details") as [details|]; cbn in Hr |- *.
  all: try (injection Hr as <-); rewrite ?Hr; cbn.
  all: destruct (vd !! "Product") as [[ | | | | | |pd]|]; try done; cbn.
  all: try (destruct (pd !! "PackageSource"); cbn).
  all: done.
Qed.

Lemma vuln_step_returns (vulnerability : pyval) (vuln_score r : Z) :
  result (vuln_step vulnerability vuln_score) = Return r →
  typed_finding vulnerability = true.
Proof.
  rewrite vuln_step_result.
  destruct vulnerability as [ | | | | | |e]; try done.
  unfold typed_finding. cbn.
  destruct (e !! "Vulnerability") as [[ | | | | | |vd]|]; try done. cbn.
  destruct (vd !! "CVEID") as [cve|]; cbn.
  all: destruct (resolve_severity (default PNone (vd !! "Details"))) as [sev|ex] eqn:Hr.
  all: destruct (vd !! "Details") as [details|]; cbn in Hr |- *; rewrite ?Hr; cbn; try done.
  all: destruct (vd !! "Product") as [[ | | | | | |pd]|]; try done; cbn.
  all: try (destruct (pd !! "PackageSource"); cbn).
  all: destruct sev; try done; cbn; intros _.
  all: try by apply (resolve_severity_str _ _ Hr).
Qed.

Lemma total_points_cons (s : string) (labels : list string) :
  total_points (s :: labels) = severity_points s + total_points labels.
Proof. reflexivity. Qed.

Lemma total_points_app (l1 l2 : list string) :
  total_points (l1 ++ l2) = total_points l1 + total_points l2.
Proof.
  induction l1 as [|s l1 IH]; [done|].
  rewrite <- app_comm_cons, !total_points_cons, IH. lia.
Qed.

Lemma vuln_loop_typed (vulnerabilities : list pyval) (vuln_score : Z) :
  forallb typed_finding vulnerabilities = true →
  result (vuln_loop vulnerabilities vuln_score) =
  Return (vuln_score + total_points (finding_label <$> vulnerabilities)).
Proof.
  revert vuln_score.
  induction vulnerabilities as [|v rest IH]; intros acc; cbn [vuln_loop forallb].
  - intros _. cbn. f_equal. lia.
  - intros [Hv Hrest]%andb_prop.
    rewrite result_bind, (vuln_step_typed _ _ Hv), (IH _ Hrest).
    rewrite fmap_cons, total_points_cons. f_equal. lia.
Qed.

Lemma vuln_loop_returns (vulnerabilities : list pyval) (vuln_score r : Z) :
  result (vuln_loop vulnerabilities vuln_score) = Return r →
  forallb typed_finding vulnerabilities = true.
Proof.
  revert vuln_score.
  induction vulnerabilities as [|v rest IH]; intros acc; simpl; [done|].
  rewrite result_bind.
  destruct (result (vuln_step v acc)) as [acc'|ex] eqn:Hstep; [|done].
  intros Hr. by rewrite (vuln_step_returns _ _ _ Hstep), (IH _ Hr).
Qed.

Lemma get_alerts_vuln_absent (self : ScanReport) :
  self !! "Vulnerabilities" = None →
  get_alerts_vuln self =
  mkPy [Log INFO "Searching for vulnerabilities in scan report..." []]
       (Raise (KeyError "Vulnerabilities")).
Proof.
  intros H. unfold get_alerts_vuln, py_getitem, vuln_str_key_1. by rewrite H.
Qed.

Lemma get_alerts_vuln_null (self : ScanReport) :
  self !! "Vulnerabilities" = Some PNone →
  get_alerts_vuln self =
  mkPy [Log INFO "Searching for vulnerabilities in scan report..." []] (Return 0).
Proof.
  intros H. unfold get_alerts_vuln, py_getitem, vuln_str_key_1. by rewrite H.
Qed.

Lemma get_alerts_vuln_list (self : ScanReport) (vulnerabilities : list pyval) :
  self !! "Vulnerabilities" = Some (PList vulnerabilities) →
  result (get_alerts_vuln self) = result (vuln_loop vulnerabilities 0).
Proof.
  intros H. unfold get_alerts_vuln, py_getitem, vuln_str_key_1. by rewrite H.
Qed.

Lemma ascii_lower_upper (c : ascii) : ascii_lower (ascii_upper c) = ascii_lower c.
Proof. by destruct c as [[] [] [] [] [] [] [] []]. Qed.

Lemma str_upper_ascii_cons (c : ascii) (s : string) :
  (N_of_ascii c <? 128)%N = true →
  str_upper (String c s) = String (ascii_upper c) (str_upper s).
Proof.
  intros Hc%N.ltb_lt. destruct s as [|c' s']; [done|].
  cbn [str_upper]. unfold is_byte.
  destruct (N.eqb_spec (N_of_ascii c) 196) as [E|_]; [lia|].
  destruct (N.eqb_spec (N_of_ascii c) 197) as [E|_]; [lia|].
  done.
Qed.

Lemma str_lower_upper (s : string) :
  str_is_ascii s = true → str_lower (str_upper s) = str_lower s.
Proof.
  induction s as [|c s IH]; [done|].
  cbn [str_is_ascii]. intros [Hc Hs]%andb_prop.
  rewrite (str_upper_ascii_cons _ _ Hc). cbn [str_lower].
  by rewrite ascii_lower_upper, (IH Hs).
Qed.

Lemma severity_points_upper (s : string) :
  str_is_ascii s = true →
  severity_points (str_upper s) = severity_points s.
Proof. intros Hs. unfold severity_points. by rewrite (str_lower_upper _ Hs). Qed.

Lemma severity_points_values (s : string) :
  severity_points s = 20 ∨ severity_points s = 100 ∨ severity_points s = 500 ∨
  severity_points s = 2000 ∨ severity_points s = 0.
Proof.
  unfold severity_points. cbv zeta.
  repeat (destruct (String.eqb _ _); [tauto|]). tauto.
Qed.

Lemma total_points_upper (labels : list string) :
  forallb str_is_ascii labels = true →
  total_points (str_upper <$> labels) = total_points labels.
Proof.
  induction labels as [|s labels IH]; [done|].
  cbn [forallb]. intros [Hs Hl]%andb_prop.
  by rewrite fmap_cons, !total_points_cons, (severity_points_upper _ Hs), (IH Hl).
Qed.

Lemma total_points_repeat (s : string) (n : nat) :
  total_points (repeat s n) = Z.of_nat n * severity_points s.
Proof.
  induction n as [|n IH]; [done|].
  cbn [repeat]. rewrite total_points_cons, IH. lia.
Qed.

Lemma typed_finding_finding (s : string) : typed_finding (finding s) = true.
Proof. reflexivity. Qed.

Lemma finding_label_finding (s : string) : finding_label (finding s) = s.
Proof. reflexivity. Qed.

Lemma get_alerts_vuln_report_of (severities : list string) :
  result (get_alerts_vuln (report_of severities)) = Return (total_points severities).
Proof.
  rewrite (get_alerts_vuln_list _ (finding <$> severities)) by done.
  rewrite vuln_loop_typed.
  - f_equal. rewrite Z.add_0_l. f_equal.
    induction severities as [|s l IH]; [done|].
    by rewrite !fmap_cons, IH.
  - apply forallb_forall. intros v [s [<- _]]%in_map_iff. apply typed_finding_finding.
Qed.


(* ===================================================================== *)
(** ** The report fetcher *)
(* ===================================================================== *)

Section get_scanreport.
Variable falcon : nat → response.
Variables repo tag : string.

Local Abbreviation loop := (get_scanreport_loop falcon repo tag 10).
Local Abbreviation attempt := [Sleep 10; GetAssessment repo tag].

(** [n] attempts from count [start] on that all find the report not
    ready: the loop runs off its end after [n] sleeps and calls. *)
Lemma get_scanreport_loop_exhausted (start n : nat) :
  (∀ i, (start ≤ i < start + n)%nat → resp_status_code (falcon i) ≠ 200) →
  result (loop (seq start n)) = Return None ∧
  io_events (trace (loop (seq start n))) = mjoin (replicate n attempt).
Proof.
  revert start. induction n as [|n IH]; intros start Hnot; [done|].
  cbn [seq get_scanreport_loop].
  assert ((resp_status_code (falcon start) =? 200) = false) as ->
    by (apply Z.eqb_neq, Hnot; lia).
  destruct (IH (S start)) as [Hres Htr]; [intros i Hi; apply Hnot; lia|].
  unfold log_debug, log_info. cbn [negb]. rewrite !bind_emit. cbn [trace result].
  split; [done|]. unfold io_events in *. cbn [List.filter]. by rewrite Htr.
Qed.

(** The first ready answer comes at attempt [k] of [n]: the loop
    returns its body after [k + 1] sleeps and calls. *)
Lemma get_scanreport_loop_ready (start n k : nat) :
  (k < n)%nat →
  (∀ i, (start ≤ i < start + k)%nat → resp_status_code (falcon i) ≠ 200) →
  resp_status_code (falcon (start + k)) = 200 →
  result (loop (seq start n)) = Return (Some (resp_body (falcon (start + k)))) ∧
  io_events (trace (loop (seq start n))) = mjoin (replicate (S k) attempt).
Proof.
  revert start n. induction k as [|k IH]; intros start n Hk Hnot Hready.
  - destruct n as [|n]; [lia|]. cbn [seq get_scanreport_loop].
    rewrite Nat.add_0_r in Hready |- *. by rewrite Hready.
  - destruct n as [|n]; [lia|]. cbn [seq get_scanreport_loop].
    assert ((resp_status_code (falcon start) =? 200) = false) as ->
      by (apply Z.eqb_neq, Hnot; lia).
    destruct (IH (S start) n) as [Hres Htr].
    + lia.
    + intros i Hi. apply Hnot. lia.
    + by replace (S start + k)%nat with (start + S k)%nat by lia.
    + replace (S start + k)%nat with (start + S k)%nat in Hres by lia.
      unfold log_debug, log_info. cbn [negb]. rewrite !bind_emit. cbn [trace result].
      split; [done|]. unfold io_events in *. cbn [List.filter]. by rewrite Htr.
Qed.
End get_scanreport.

Lemma get_scanreport_exhausted (falcon : nat → response) (repo tag : string) (retry_count : Z) :
  (∀ i, (i < Z.to_nat retry_count)%nat → resp_status_code (falcon i) ≠ 200) →
  result (get_scanreport falcon repo tag retry_count) =
    Raise (RetryExhaustedError (retry_message retry_count)) ∧
  io_events (trace (get_scanreport falcon repo tag retry_count)) =
    mjoin (replicate (Z.to_nat retry_count) [Sleep 10; GetAssessment repo tag]).
Proof.
  intros Hnot.
  destruct (get_scanreport_loop_exhausted falcon repo tag 0 (Z.to_nat retry_count))
    as [Hres Htr]; [intros i Hi; apply Hnot; lia|].
  unfold get_scanreport, py_range, log_info. rewrite bind_emit. cbn [trace result].
  rewrite result_bind, trace_bind, Hres. cbn [trace result raise].
  split; [done|]. unfold io_events in *. cbn [List.filter].
  by rewrite app_nil_r.
Qed.

Lemma get_scanreport_ready (falcon : nat → response) (repo tag : string)
    (retry_count : Z) (k : nat) :
  (k < Z.to_nat retry_count)%nat →
  (∀ i, (i < k)%nat → resp_status_code (falcon i) ≠ 200) →
  resp_status_code (falcon k) = 200 →
  result (get_scanreport falcon repo tag retry_count) = Return (resp_body (falcon k)) ∧
  io_events (trace (get_scanreport falcon repo tag retry_count)) =
    mjoin (replicate (S k) [Sleep 10; GetAssessment repo tag]).
Proof.
  intros Hk Hnot Hready.
  destruct (get_scanreport_loop_ready falcon repo tag 0 (Z.to_nat retry_count) k)
    as [Hres Htr]; [done|intros i Hi; apply Hnot; lia|done|].
  unfold get_scanreport, py_range, log_info. rewrite bind_emit. cbn [trace result].
  rewrite result_bind, trace_bind, Hres. cbn [trace result mret Py_ret].
  split; [done|]. unfold io_events in *. cbn [List.filter].
  by rewrite app_nil_r.
Qed.

(* ===================================================================== *)
(** ** main *)
(* ===================================================================== *)

Lemma try_except_main_Exception (body : Py unit) (e : pyexn) :
  result body = Raise e → is_Exception e = true →
  result (try_except body main_handler) = Raise (SystemExit (value ScriptFailure)).
Proof.
  intros Hb He. unfold try_except. rewrite Hb. by destruct e.
Qed.

Lemma try_except_main_SystemExit (body : Py unit) (code : Z) :
  result body = Raise (SystemExit code) →
  result (try_except body main_handler) = Raise (SystemExit code).
Proof.
  intros Hb. unfold try_except. by rewrite Hb.
Qed.

Lemma main_fetched (a : Args) (w : World) (self : ScanReport) :
  fetched a w self →
  result (main a w) = result (try_except (main_report a w self) main_handler).
Proof.
  unfold fetched, main. intros Hf.
  rewrite (bind_Return _ _ _ Hf). unfold try_except. cbn [result trace].
  destruct (result (main_report a w self)) as [[]|e] eqn:Hr; cbn; [done|].
  by destruct (main_handler e).
Qed.

Lemma main_not_fetched (a : Args) (w : World) (e : pyexn) :
  result (get_scanreport (falcon w) (repo a) (tag a) (retry_count a)) = Raise e →
  is_Exception e = true →
  exit_code (main a w) = value ScriptFailure.
Proof.
  intros Hf He. unfold exit_code, main.
  rewrite (try_except_main_Exception _ e); [done| |done].
  by rewrite result_bind, Hf.
Qed.

Lemma export_result (a : Args) (w : World) (self : ScanReport) :
  export_succeeds a w →
  result (if truthy (json_report a)
          then export (write_error w) self (default "" (json_report a))
          else mret tt) = Return tt.
Proof.
  unfold export_succeeds. destruct (truthy (json_report a)); [|done].
  intros ->; done.
Qed.

(** The outcome of the part of [main] that reads the report, from the
    outcomes of the four scans. *)
Lemma main_report_result (a : Args) (w : World) (self : ScanReport) :
  plugin a = false → export_succeeds a w →
  result (main_report a w self) =
  (f_vuln_score ← result (get_alerts_vuln self);
   f_secrets ← result (get_alerts_secrets self);
   f_malware ← result (get_alerts_malware self);
   _ ← result (get_alerts_misconfig self);
   if f_secrets =? value Secrets then Raise (SystemExit (value Secrets))
   else if f_malware =? value Malware then Raise (SystemExit (value Malware))
   else
     threshold ← py_int w (score a);
     if f_vuln_score >=? threshold then Raise (SystemExit (value Vulnerability))
     else Raise (SystemExit (value Success))).
Proof.
  intros Hp Hex. unfold main_report. rewrite Hp.
  rewrite result_bind. cbn [result mret Py_ret].
  rewrite result_bind, (export_result _ _ _ Hex).
  rewrite result_bind. destruct (result (get_alerts_vuln self)) as [v|]; [|done].
  rewrite result_bind. destruct (result (get_alerts_secrets self)) as [s|]; [|done].
  rewrite result_bind. destruct (result (get_alerts_malware self)) as [m|]; [|done].
  rewrite result_bind. destruct (result (get_alerts_misconfig self)) as [c|]; [|done].
  cbn [mbind outcome_bind].
  destruct (s =? value Secrets); [done|].
  destruct (m =? value Malware); [done|].
  rewrite result_bind. cbn [lift result].
  destruct (py_int w (score a)) as [t|]; [|done].
  cbn [mbind outcome_bind]. by destruct (v >=? t).
Qed.

(** Nothing in the scans leaves the process: what they raise is caught by
    [except Exception]. *)
Lemma outcome_bind_raises {A B : Type} (o : outcome A) (f : A → outcome B) (e : pyexn) :
  o ≫= f = Raise e →
  o = Raise e ∨ ∃ a, o = Return a ∧ f a = Raise e.
Proof.
  destruct o as [a|e']; cbn.
  - intros H. right. by exists a.
  - intros [= ->]. by left.
Qed.

Lemma py_getitem_raises (x : pyval) (key : string) (e : pyexn) :
  py_getitem x key = Raise e → is_Exception e = true.
Proof.
  destruct x; cbn; try by intros [= <-].
  destruct (_ !! _); intros [=]; by subst.
Qed.

Lemma py_get_raises (x : pyval) (key : string) (default : pyval) (e : pyexn) :
  py_get x key default = Raise e → is_Exception e = true.
Proof.
  destruct x; cbn; try by intros [= <-].
  by destruct (_ !! _).
Qed.

Lemma py_lower_raises (x : pyval) (e : pyexn) :
  py_lower x = Raise e → is_Exception e = true.
Proof. destruct x; cbn; intros [=]; by subst. Qed.

Lemma py_iter_raises (x : pyval) (e : pyexn) :
  py_iter x = Raise e → is_Exception e = true.
Proof. destruct x; cbn; intros [=]; by subst. Qed.

Ltac raises_step :=
  match goal with
  | H : _ ≫= _ = Raise _ |- _ =>
      apply outcome_bind_raises in H as [H|(? & _ & H)]
  | H : py_getitem _ _ = Raise _ |- _ => exact (py_getitem_raises _ _ _ H)
  | H : py_get _ _ _ = Raise _ |- _ => exact (py_get_raises _ _ _ _ H)
  | H : py_lower _ = Raise _ |- _ => exact (py_lower_raises _ _ H)
  | H : (if ?b then _ else _) = Raise _ |- _ => destruct b
  | H : Return _ = Raise _ |- _ => discriminate H
  end.

Lemma resolve_severity_raises (details : pyval) (e : pyexn) :
  resolve_severity details = Raise e → is_Exception e = true.
Proof.
  unfold resolve_severity. intros H. repeat raises_step.
Qed.

Lemma vuln_step_raises (vulnerability : pyval) (vuln_score : Z) (e : pyexn) :
  result (vuln_step vulnerability vuln_score) = Raise e → is_Exception e = true.
Proof.
  rewrite vuln_step_result. intros H.
  repeat first [raises_step | exact (resolve_severity_raises _ _ ltac:(eassumption))].
Qed.

Lemma vuln_loop_raises (vulnerabilities : list pyval) (vuln_score : Z) (e : pyexn) :
  result (vuln_loop vulnerabilities vuln_score) = Raise e → is_Exception e = true.
Proof.
  revert vuln_score.
  induction vulnerabilities as [|v rest IH]; intros acc; cbn [vuln_loop]; [done|].
  rewrite result_bind.
  destruct (result (vuln_step v acc)) as [acc'|e'] eqn:Hstep.
  - apply IH.
  - intros [= <-]. by apply (vuln_step_raises _ _ _ Hstep).
Qed.

Lemma get_alerts_vuln_raises (self : ScanReport) (e : pyexn) :
  result (get_alerts_vuln self) = Raise e → is_Exception e = true.
Proof.
  unfold get_alerts_vuln, py_getitem, vuln_str_key_1.
  destruct (self !! "Vulnerabilities") as [v|]; cbn; [|by intros [= <-]].
  destruct v; cbn; try done; try (by intros [= <-]); apply vuln_loop_raises.
Qed.

(** A scan that raises an exception takes [main] to [ScriptFailure], as
    long as the scans before it return or raise as well. *)
Lemma main_report_secrets_raise (a : Args) (w : World) (self : ScanReport) (e : pyexn) :
  plugin a = false → export_succeeds a w →
  result (get_alerts_secrets self) = Raise e → is_Exception e = true →
  result (try_except (main_report a w self) main_handler) =
  Raise (SystemExit (value ScriptFailure)).
Proof.
  intros Hp Hex Hs He.
  destruct (result (get_alerts_vuln self)) as [v|e'] eqn:Hv.
  - apply (try_except_main_Exception _ e); [|done].
    by rewrite main_report_result, Hv, Hs.
  - apply (try_except_main_Exception _ e'); [|by apply (get_alerts_vuln_raises _ _ Hv)].
    by rewrite main_report_result, Hv.
Qed.

Lemma main_report_vuln_raise (a : Args) (w : World) (self : ScanReport) (e : pyexn) :
  plugin a = false → export_succeeds a w →
  result (get_alerts_vuln self) = Raise e →
  result (try_except (main_report a w self) main_handler) =
  Raise (SystemExit (value ScriptFailure)).
Proof.
  intros Hp Hex Hv.
  apply (try_except_main_Exception _ e); [|by apply (get_alerts_vuln_raises _ _ Hv)].
  by rewrite main_report_result, Hv.
Qed.

(* ===================================================================== *)
(** ** The exit status *)
(* ===================================================================== *)

Lemma scan_list_returns (opening : string) (is_match : string → bool) (alert : Py unit)
    (code : Z) (self : ScanReport) (detections : list pyval) (r : Z) :
  result alert = Return tt →
  self !! "Detections" = Some (PList detections) →
  result (scan_detections opening is_match alert code self) = Return r →
  r = if existsb (detection_is is_match) detections then code else 0.
Proof.
  intros Ha H. rewrite (scan_detections_list _ _ _ _ _ _ H). cbn [result].
  by apply detections_loop_returns.
Qed.

Lemma get_alerts_secrets_returns (self : ScanReport) (r : Z) :
  result (get_alerts_secrets self) = Return r → r = value Secrets ∨ r = 0.
Proof. by apply scan_detections_returns. Qed.

Lemma get_alerts_malware_returns (self : ScanReport) (r : Z) :
  result (get_alerts_malware self) = Return r → r = value Malware ∨ r = 0.
Proof. by apply scan_detections_returns. Qed.

Lemma get_alerts_misconfig_returns (self : ScanReport) (r : Z) :
  result (get_alerts_misconfig self) = Return r → r = 0.
Proof.
  intros H. apply scan_detections_returns in H; [|done]. by destruct H.
Qed.

Lemma get_alerts_secrets_list (self : ScanReport) (detections : list pyval) (r : Z) :
  self !! "Detections" = Some (PList detections) →
  result (get_alerts_secrets self) = Return r →
  r = if existsb (detection_is is_secret) detections then value Secrets else 0.
Proof. by apply scan_list_returns. Qed.

Lemma main_exit_code (a : Args) (w : World) (self : ScanReport) (v s m c t : Z) :
  fetched a w self → plugin a = false → export_succeeds a w →
  result (get_alerts_vuln self) = Return v →
  result (get_alerts_secrets self) = Return s →
  result (get_alerts_malware self) = Return m →
  result (get_alerts_misconfig self) = Return c →
  py_int w (score a) = Return t →
  exit_code (main a w) =
  if s =? value Secrets then value Secrets
  else if m =? value Malware then value Malware
  else if v >=? t then value Vulnerability
  else value Success.
Proof.
  intros Hf Hp Hex Hv Hs Hm Hc Ht.
  unfold exit_code. rewrite (main_fetched _ _ _ Hf).
  assert (result (main_report a w self) =
          Raise (SystemExit (if s =? value Secrets then value Secrets
                             else if m =? value Malware then value Malware
                             else if v >=? t then value Vulnerability
                             else value Success))) as Hr.
  { rewrite main_report_result, Hv, Hs, Hm, Hc by done. cbn [mbind outcome_bind].
    destruct (s =? value Secrets); [done|].
    destruct (m =? value Malware); [done|].
    rewrite Ht. cbn [mbind outcome_bind]. by destruct (v >=? t). }
  by rewrite (try_except_main_SystemExit _ _ Hr).
Qed.

(** C1 — The status resolver of [main] picks one terminal status by
    strict priority: a set secrets flag gives SECRETS_FOUND (3); otherwise
    a set malware flag gives MALWARE_FOUND (2); otherwise a score at or
    above the threshold gives THRESHOLD_EXCEEDED (1); otherwise CLEAN (0).
    A report with both a secrets and a malware detection resolves to
    SECRETS_FOUND; a score equal to the threshold resolves to
    THRESHOLD_EXCEEDED and a score one below it to CLEAN.  The resolver runs
    on the outcome of the four scans, so the scans are assumed to return. *)
Theorem C1_status_priority (a : Args) (w : World) (self : ScanReport) (v s m c t : Z) :
  fetched a w self → plugin a = false → export_succeeds a w →
  result (get_alerts_vuln self) = Return v →
  result (get_alerts_secrets self) = Return s →
  result (get_alerts_malware self) = Return m →
  result (get_alerts_misconfig self) = Return c →
  py_int w (score a) = Return t →
  let status := exit_code (main a w) in
  (s ≠ 0 → status = value Secrets) ∧
  (s = 0 → m ≠ 0 → status = value Malware) ∧
  (s = 0 → m = 0 → t ≤ v → status = value Vulnerability) ∧
  (s = 0 → m = 0 → v < t → status = value Success) ∧
  (∀ detections, self !! "Detections" = Some (PList detections) →
     (∃ d, d ∈ detections ∧ detection_is is_secret d = true) →
     (∃ d, d ∈ detections ∧ detection_is is_malware d = true) →
     status = value Secrets) ∧
  (s = 0 → m = 0 → v = t → status = value Vulnerability) ∧
  (s = 0 → m = 0 → v = t - 1 → status = value Success).
Proof.
  intros Hf Hp Hex Hv Hs Hm Hc Ht status.
  assert (status =
          if s =? value Secrets then value Secrets
          else if m =? value Malware then value Malware
          else if v >=? t then value Vulnerability
          else value Success) as Hstatus
    by (by apply (main_exit_code a w self v s m c t)).
  assert (s = value Secrets ∨ s = 0) as Hs3
    by (by apply get_alerts_secrets_returns with self).
  assert (m = value Malware ∨ m = 0) as Hm2
    by (by apply get_alerts_malware_returns with self).
  clearbody status. cbn [value] in *.
  split_and!.
  - intros Hne. destruct Hs3 as [->|]; [by rewrite Hstatus|done].
  - intros -> Hne. destruct Hm2 as [->|]; [by rewrite Hstatus|done].
  - intros -> -> Hge. rewrite Hstatus. cbn.
    destruct (Z.geb_spec v t); [done|lia].
  - intros -> -> Hlt. rewrite Hstatus. cbn.
    destruct (Z.geb_spec v t); [lia|done].
  - intros detections Hd Hsec%existsb_Exists_is _.
    apply (get_alerts_secrets_list _ _ _ Hd) in Hs.
    rewrite Hsec in Hs. subst s. by rewrite Hstatus.
  - intros -> -> ->. rewrite Hstatus. cbn.
    destruct (Z.geb_spec t t); [done|lia].
  - intros -> -> ->. rewrite Hstatus. cbn.
    destruct (Z.geb_spec (t - 1) t); [lia|done].
Qed.

Lemma C1_status_priority_witness :
  exit_code (main sample_args (sample_world sample_both)) = 3.
Proof.
  refine (proj1 (C1_status_priority sample_args (sample_world sample_both) sample_both
                   2000 3 2 0 500 _ _ _ _ _ _ _ _) _); try reflexivity; try done.
Defined.

(* ===================================================================== *)
(** ** Missing and empty lists *)
(* ===================================================================== *)

(** C2, as stated, fails: a report without the ["Vulnerabilities"] key
    makes [get_alerts_vuln] raise [KeyError], and [main] exits with
    ScriptFailure instead of a score of 0. *)
Lemma C2_absent_key_counterexample :
  report_without_vulnerabilities !! "Vulnerabilities" = None ∧
  result (get_alerts_vuln report_without_vulnerabilities) = Raise (KeyError "Vulnerabilities") ∧
  result (get_alerts_vuln report_without_vulnerabilities) ≠ Return 0 ∧
  exit_code (main sample_args (sample_world report_without_vulnerabilities)) = 10.
Proof. by split_and!. Qed.

(** C2, amended — For every report in which the ["Vulnerabilities"] and
    ["Detections"] keys are present and hold null or an empty list,
    classification does not fail: the score is 0 and the malware, secrets
    and misconfiguration scans return 0.  A report in which a key is
    absent makes each scan that reads the key raise [KeyError]. *)
Theorem C2_null_or_empty_lists :
  (∀ self : ScanReport,
     (self !! "Vulnerabilities" = Some PNone ∨ self !! "Vulnerabilities" = Some (PList [])) →
     (self !! "Detections" = Some PNone ∨ self !! "Detections" = Some (PList [])) →
     result (get_alerts_vuln self) = Return 0 ∧
     result (get_alerts_malware self) = Return 0 ∧
     result (get_alerts_secrets self) = Return 0 ∧
     result (get_alerts_misconfig self) = Return 0) ∧
  (∀ self : ScanReport,
     self !! "Vulnerabilities" = None →
     result (get_alerts_vuln self) = Raise (KeyError "Vulnerabilities")) ∧
  (∀ self : ScanReport,
     self !! "Detections" = None →
     result (get_alerts_malware self) = Raise (KeyError "Detections") ∧
     result (get_alerts_secrets self) = Raise (KeyError "Detections") ∧
     result (get_alerts_misconfig self) = Raise (KeyError "Detections")).
Proof.
  split_and!.
  - intros self Hv Hd. split.
    + destruct Hv as [Hv|Hv].
      * by rewrite (get_alerts_vuln_null _ Hv).
      * by rewrite (get_alerts_vuln_list _ _ Hv).
    + unfold get_alerts_malware, get_alerts_secrets, get_alerts_misconfig.
      destruct Hd as [Hd|Hd].
      * by rewrite !(scan_detections_null _ _ _ _ _ Hd).
      * by rewrite !(scan_detections_list _ _ _ _ _ _ Hd).
  - intros self Hv. by rewrite (get_alerts_vuln_absent _ Hv).
  - intros self Hd.
    unfold get_alerts_malware, get_alerts_secrets, get_alerts_misconfig.
    by rewrite !(scan_detections_absent _ _ _ _ _ Hd).
Qed.

Lemma C2_null_or_empty_lists_witness :
  result (get_alerts_vuln {[ "Vulnerabilities" := PNone; "Detections" := PList [] ]}) = Return 0 ∧
  result (get_alerts_malware {[ "Vulnerabilities" := PNone; "Detections" := PList [] ]}) = Return 0 ∧
  result (get_alerts_secrets {[ "Vulnerabilities" := PNone; "Detections" := PList [] ]}) = Return 0 ∧
  result (get_alerts_misconfig {[ "Vulnerabilities" := PNone; "Detections" := PList [] ]}) = Return 0.
Proof.
  apply (proj1 C2_null_or_empty_lists); [left|right]; reflexivity.
Defined.

(* ===================================================================== *)
(** ** Malware, secrets and misconfiguration *)
(* ===================================================================== *)

(** An entry without a type field is passed over, wherever it stands. *)
Lemma detections_loop_skip (is_match : string → bool) (alert : Py unit) (code : Z)
    (before after : list pyval) (d : pyval) (det_code : Z) :
  detection_without_type d = true →
  detections_loop is_match alert code (before ++ d :: after) det_code =
  detections_loop is_match alert code (before ++ after) det_code.
Proof.
  intros Hd. induction before as [|b before IH]; cbn [app detections_loop].
  - destruct (detection_without_type_typed d Hd) as [Hty _].
    by destruct (detection_type_lower_typed d Hty)
      as [(_ & _ & k & ->)|(s & _ & Hs)]; [|specialize (Hs (λ _, true));
         destruct (detection_without_type_typed d Hd) as [_ Hno]; rewrite Hno in Hs].
  - by rewrite IH.
Qed.

Lemma scan_detections_skip (opening : string) (is_match : string → bool) (alert : Py unit)
    (code : Z) (self : ScanReport) (before after : list pyval) (d : pyval) :
  detection_without_type d = true →
  scan_detections opening is_match alert code
    (<["Detections" := PList (before ++ d :: after)]> self) =
  scan_detections opening is_match alert code
    (<["Detections" := PList (before ++ after)]> self).
Proof.
  intros Hd.
  rewrite (scan_detections_list _ _ _ _ _ (before ++ d :: after)) by apply lookup_insert_eq.
  rewrite (scan_detections_list _ _ _ _ _ (before ++ after)) by apply lookup_insert_eq.
  by rewrite (detections_loop_skip _ _ _ _ _ _ _ Hd).
Qed.

(** The three scans as instances of the shared frame. *)
Lemma get_alerts_malware_scan (self : ScanReport) :
  get_alerts_malware self =
  scan_detections "Searching for malware in scan report..." is_malware
    (log_warning "Alert: Malware found" []) (value Malware) self.
Proof. reflexivity. Qed.

Lemma get_alerts_secrets_scan (self : ScanReport) :
  get_alerts_secrets self =
  scan_detections "Searching for leaked secrets in scan report..." is_secret
    (log_error "Alert: Leaked secrets detected" []) (value Secrets) self.
Proof. reflexivity. Qed.

Lemma get_alerts_misconfig_scan (self : ScanReport) :
  get_alerts_misconfig self =
  scan_detections "Searching for misconfigurations in scan report..." is_misconfig
    (log_warning "Alert: Misconfiguration found" []) (value Success) self.
Proof. reflexivity. Qed.

Ltac scan_rewrite lem :=
  rewrite ?get_alerts_malware_scan, ?get_alerts_secrets_scan, ?get_alerts_misconfig_scan;
  erewrite !lem by (try reflexivity; eassumption).

(** C6 — The malware flag is set exactly when some detection's type is
    "malware" without regard to case, the secrets flag exactly when some
    detection's type is "secret"; the flags are the codes 2 and 3, not
    counts; a detection without its type field is passed over; a scan
    stops at the first match, whatever follows it. *)
Theorem C6_malware_secrets_flags :
  (∀ (self : ScanReport) (detections : list pyval),
     self !! "Detections" = Some (PList detections) →
     forallb typed_detection detections = true →
     result (get_alerts_malware self) =
       Return (if existsb (detection_is is_malware) detections then value Malware else 0) ∧
     result (get_alerts_secrets self) =
       Return (if existsb (detection_is is_secret) detections then value Secrets else 0) ∧
     (flag_set (get_alerts_malware self) ↔
        ∃ d, d ∈ detections ∧ detection_is is_malware d = true) ∧
     (flag_set (get_alerts_secrets self) ↔
        ∃ d, d ∈ detections ∧ detection_is is_secret d = true)) ∧
  (∀ (self : ScanReport) (before after : list pyval) (d : pyval),
     detection_without_type d = true →
     get_alerts_malware (<["Detections" := PList (before ++ d :: after)]> self) =
       get_alerts_malware (<["Detections" := PList (before ++ after)]> self) ∧
     get_alerts_secrets (<["Detections" := PList (before ++ d :: after)]> self) =
       get_alerts_secrets (<["Detections" := PList (before ++ after)]> self)) ∧
  (∀ (self : ScanReport) (before after : list pyval) (d : pyval),
     self !! "Detections" = Some (PList (before ++ d :: after)) →
     forallb typed_detection before = true →
     (existsb (detection_is is_malware) before = false →
      detection_is is_malware d = true →
      get_alerts_malware self =
        mkPy [Log INFO "Searching for malware in scan report..." [];
              Log WARNING "Alert: Malware found" []] (Return 2)) ∧
     (existsb (detection_is is_secret) before = false →
      detection_is is_secret d = true →
      get_alerts_secrets self =
        mkPy [Log INFO "Searching for leaked secrets in scan report..." [];
              Log ERROR "Alert: Leaked secrets detected" []] (Return 3))).
Proof.
  split_and!.
  - intros self detections Hd Hty.
    assert (result (get_alerts_malware self) =
            Return (if existsb (detection_is is_malware) detections then value Malware else 0))
      as Hm.
    { scan_rewrite scan_detections_typed. by destruct (existsb _ _). }
    assert (result (get_alerts_secrets self) =
            Return (if existsb (detection_is is_secret) detections then value Secrets else 0))
      as Hs.
    { scan_rewrite scan_detections_typed.
      by destruct (existsb (detection_is is_secret) _). }
    split_and!; [done|done| |].
    + rewrite <- existsb_Exists_is. unfold flag_set. rewrite Hm. clear Hm Hs.
      destruct (existsb _ _); split; try done.
      * intros _. by exists 2.
      * by intros (c & [= <-] & Hc).
    + rewrite <- existsb_Exists_is. unfold flag_set. rewrite Hs. clear Hm Hs.
      destruct (existsb _ _); split; try done.
      * intros _. by exists 3.
      * by intros (c & [= <-] & Hc).
  - intros self before after d Hd. split; by apply scan_detections_skip.
  - intros self before after d Hd Hty. split; intros Hno Hm.
    + by scan_rewrite scan_detections_first_match.
    + by scan_rewrite scan_detections_first_match.
Qed.

Lemma C6_malware_secrets_flags_witness :
  result (get_alerts_malware sample_both) = Return 2 ∧
  result (get_alerts_secrets sample_both) = Return 3.
Proof.
  destruct (proj1 C6_malware_secrets_flags sample_both
              [detection (PStr "Malware"); detection (PStr "Secret")])
    as (Hm & Hs & _); [reflexivity|reflexivity|].
  split; [exact Hm|exact Hs].
Defined.

(** C5, as stated, fails: on a report whose only detection is a
    misconfiguration the scan returns 0, the value it returns on a report
    without detections, so no flag is set. *)
Lemma C5_misconfig_flag_counterexample :
  report_misconfigured !! "Detections" = Some (PList [detection (PStr "Misconfiguration")]) ∧
  detection_is is_misconfig (detection (PStr "Misconfiguration")) = true ∧
  result (get_alerts_misconfig report_misconfigured) = Return 0 ∧
  ¬ flag_set (get_alerts_misconfig report_misconfigured).
Proof.
  split_and!; try done.
  intros (c & Hc & Hne). cbn in Hc. by injection Hc as <-.
Qed.

(** C5, amended — The misconfiguration scan logs its alert "Alert:
    Misconfiguration found" exactly when some detection's type is
    "misconfiguration" or "cis" without regard to case, and returns 0 in
    either case; a detection without its type field is passed over; the
    scan stops at the first match, whatever follows it. *)
Theorem C5_misconfig_alert :
  (∀ (self : ScanReport) (detections : list pyval),
     self !! "Detections" = Some (PList detections) →
     forallb typed_detection detections = true →
     result (get_alerts_misconfig self) = Return 0 ∧
     (alerted (get_alerts_misconfig self) WARNING "Alert: Misconfiguration found" ↔
        ∃ d, d ∈ detections ∧ detection_is is_misconfig d = true)) ∧
  (∀ (self : ScanReport) (before after : list pyval) (d : pyval),
     detection_without_type d = true →
     get_alerts_misconfig (<["Detections" := PList (before ++ d :: after)]> self) =
       get_alerts_misconfig (<["Detections" := PList (before ++ after)]> self)) ∧
  (∀ (self : ScanReport) (before after : list pyval) (d : pyval),
     self !! "Detections" = Some (PList (before ++ d :: after)) →
     forallb typed_detection before = true →
     existsb (detection_is is_misconfig) before = false →
     detection_is is_misconfig d = true →
     get_alerts_misconfig self =
       mkPy [Log INFO "Searching for misconfigurations in scan report..." [];
             Log WARNING "Alert: Misconfiguration found" []] (Return 0)).
Proof.
  split_and!.
  - intros self detections Hd Hty.
    rewrite <- existsb_Exists_is. unfold alerted.
    scan_rewrite scan_detections_typed.
    destruct (existsb _ _); cbn [trace result value log_warning emit].
    + split; [done|]. split; [done|]. intros _. set_solver.
    + split; [done|]. split; [|done].
      intros [[=]|[]%elem_of_nil]%elem_of_cons.
  - intros self before after d Hd. by apply scan_detections_skip.
  - intros self before after d Hd Hty Hno Hm.
    by scan_rewrite scan_detections_first_match.
Qed.

Lemma C5_misconfig_alert_witness :
  result (get_alerts_misconfig report_misconfigured) = Return 0 ∧
  alerted (get_alerts_misconfig report_misconfigured) WARNING "Alert: Misconfiguration found".
Proof.
  destruct (proj1 C5_misconfig_alert report_misconfigured
              [detection (PStr "Misconfiguration")]) as [Hr Ha];
    [reflexivity|reflexivity|].
  split; [exact Hr|]. apply Ha.
  exists (detection (PStr "Misconfiguration")). split; [apply list_elem_of_singleton|]; reflexivity.
Defined.

(** C10 — The detection scans catch [KeyError] only: a detection whose
    type field is present but is no string, standing behind entries that
    lack the field (which are passed over), makes [get_alerts_malware],
    [get_alerts_secrets] and [get_alerts_misconfig] raise
    [AttributeError], and [main] exits with ScriptFailure (10). *)
Theorem C10_type_not_str_raises (self : ScanReport) (before after : list pyval) (d : pyval) :
  self !! "Detections" = Some (PList (before ++ d :: after)) →
  forallb detection_without_type before = true →
  detection_type_not_str d = true →
  result (get_alerts_malware self) = Raise AttributeError ∧
  result (get_alerts_secrets self) = Raise AttributeError ∧
  result (get_alerts_misconfig self) = Raise AttributeError ∧
  (∀ (a : Args) (w : World),
     fetched a w self → plugin a = false → export_succeeds a w →
     exit_code (main a w) = value ScriptFailure).
Proof.
  intros Hd [Hty Hno]%forallb_without_type Hns.
  assert (result (get_alerts_secrets self) = Raise AttributeError) as Hs.
  { pose proof (Hno is_secret). by scan_rewrite scan_detections_not_str. }
  split_and!.
  - pose proof (Hno is_malware). by scan_rewrite scan_detections_not_str.
  - done.
  - pose proof (Hno is_misconfig). by scan_rewrite scan_detections_not_str.
  - intros a w Hf Hp Hex. unfold exit_code.
    rewrite (main_fetched _ _ _ Hf).
    by rewrite (main_report_secrets_raise _ _ _ _ Hp Hex Hs).
Qed.

Lemma C10_type_not_str_raises_witness :
  result (get_alerts_malware report_numeric_type) = Raise AttributeError ∧
  result (get_alerts_secrets report_numeric_type) = Raise AttributeError ∧
  result (get_alerts_misconfig report_numeric_type) = Raise AttributeError ∧
  exit_code (main sample_args (sample_world report_numeric_type)) = 10.
Proof.
  destruct (C10_type_not_str_raises report_numeric_type [] [] (detection (PInt 7)))
    as (Hm & Hs & Hc & Hmain); [reflexivity|reflexivity|reflexivity|].
  split_and!; [exact Hm|exact Hs|exact Hc|].
  apply Hmain; [reflexivity|reflexivity|done].
Defined.

(* ===================================================================== *)
(** ** The severity chain and the score *)
(* ===================================================================== *)

(** C3, as stated, fails: with an empty string as direct severity and
    "high" under [cvss_v3_score], "first non-empty wins" yields "high"
    (500 points), while the program keeps the empty string and scores 0. *)
Lemma C3_first_non_empty_counterexample :
  first_non_empty (severity_candidates details_empty_then_high) = PStr "high" ∧
  severity_points "high" = 500 ∧
  resolve_severity (PDict details_empty_then_high) = Return (PStr "") ∧
  result (get_alerts_vuln report_empty_then_high) = Return 0.
Proof. by split_and!. Qed.

(** C3, amended — The severity label of a finding is resolved by the
    chain [details.severity], [details.cvss_v3_score.severity],
    [details.cvss_v2_score.severity], in this order, and the first value
    that is present and not null wins (an empty string is such a value);
    the label is the empty string when there is none or when the details
    are no dictionary.  A finding whose direct severity is absent and
    whose [cvss_v3_score.severity] is "high" adds 500 points. *)
Theorem C3_severity_chain :
  (∀ dd : gmap string pyval,
     typed_details (PDict dd) = true →
     resolve_severity (PDict dd) = Return (first_not_None (severity_candidates dd))) ∧
  (∀ details : pyval,
     isinstance_dict details = false →
     resolve_severity details = Return (PStr "")) ∧
  (∀ (e vd dd c3 : gmap string pyval) (vuln_score : Z),
     e !! "Vulnerability" = Some (PDict vd) →
     absent_or_dict (vd !! "Product") = true →
     vd !! "Details" = Some (PDict dd) →
     dd !! "severity" = None →
     dd !! "cvss_v3_score" = Some (PDict c3) →
     c3 !! "severity" = Some (PStr "high") →
     resolve_severity (PDict dd) = Return (PStr "high") ∧
     result (vuln_step (PDict e) vuln_score) = Return (vuln_score + 500)).
Proof.
  split_and!.
  - intros dd Hty. by destruct (resolve_severity_typed _ Hty) as [-> _].
  - intros details Hd. by destruct details.
  - intros e vd dd c3 acc He Hp Hvd H1 H3 Hc3.
    assert (typed_details (PDict dd) = true) as Hty.
    { unfold typed_details. rewrite H1, H3. cbn. by rewrite Hc3. }
    assert (details_severity (PDict dd) = PStr "high") as Hsev.
    { unfold details_severity, severity_candidates. rewrite H1, H3. cbn. by rewrite Hc3. }
    split.
    + destruct (resolve_severity_typed _ Hty) as [-> _]. by rewrite Hsev.
    + rewrite vuln_step_typed.
      * unfold finding_label, finding_details. rewrite He, Hvd.
        cbn -[details_severity]. by rewrite Hsev.
      * unfold typed_finding. rewrite He, Hp, Hvd. cbn -[typed_details]. by rewrite Hty.
Qed.

Lemma C3_severity_chain_witness :
  result (vuln_step
            (PDict {[ "Vulnerability" := PDict {[ "Details" :=
               PDict {[ "cvss_v3_score" := PDict {[ "severity" := PStr "high" ]} ]} ]} ]})
            0) = Return 500.
Proof.
  refine (proj2 (proj2 (proj2 C3_severity_chain) _
    {[ "Details" := PDict {[ "cvss_v3_score" := PDict {[ "severity" := PStr "high" ]} ]} ]}
    {[ "cvss_v3_score" := PDict {[ "severity" := PStr "high" ]} ]}
    {[ "severity" := PStr "high" ]} 0 _ _ _ _ _ _)); reflexivity.
Defined.

(** C4, as stated, fails for labels outside ASCII: the label "high"
    written with the dotless i (U+0131) is no "high" for [lower()] and
    scores 0, while its upper case is "HIGH" and scores 500. *)
Lemma C4_uppercase_counterexample :
  str_upper dotless_high = "HIGH" ∧
  str_lower dotless_high = dotless_high ∧
  result (get_alerts_vuln (report_of [dotless_high])) = Return 0 ∧
  result (get_alerts_vuln (report_of [str_upper dotless_high])) = Return 500.
Proof. by split_and!. Qed.

(** C4, amended — The vulnerability score is the sum over the findings
    of the points of their resolved severity label, read without regard
    to case: low 20, medium 100, high 500, critical 2000, anything else 0
    and without raising; the sum has no cap; a report whose labels are
    ASCII text scores the same with its labels in upper case. *)
Theorem C4_vulnerability_score :
  (∀ (self : ScanReport) (vulnerabilities : list pyval),
     self !! "Vulnerabilities" = Some (PList vulnerabilities) →
     forallb typed_finding vulnerabilities = true →
     result (get_alerts_vuln self) =
       Return (total_points (finding_label <$> vulnerabilities))) ∧
  (∀ s : string,
     (str_lower s = "low" → severity_points s = 20) ∧
     (str_lower s = "medium" → severity_points s = 100) ∧
     (str_lower s = "high" → severity_points s = 500) ∧
     (str_lower s = "critical" → severity_points s = 2000) ∧
     (str_lower s ≠ "low" → str_lower s ≠ "medium" → str_lower s ≠ "high" →
      str_lower s ≠ "critical" → severity_points s = 0)) ∧
  (∀ severities : list string,
     result (get_alerts_vuln (report_of severities)) = Return (total_points severities) ∧
     (forallb str_is_ascii severities = true →
      result (get_alerts_vuln (report_of (str_upper <$> severities))) =
        result (get_alerts_vuln (report_of severities)))) ∧
  (∀ bound : Z, ∃ (severities : list string) (vuln_score : Z),
     result (get_alerts_vuln (report_of severities)) = Return vuln_score ∧
     bound < vuln_score).
Proof.
  split_and!.
  - intros self vs Hv Hty.
    rewrite (get_alerts_vuln_list _ _ Hv), (vuln_loop_typed _ _ Hty).
    f_equal; lia.
  - intros s. unfold severity_points. cbv zeta.
    split_and!; try (by intros ->).
    intros H1 H2 H3 H4.
    by rewrite (proj2 (String.eqb_neq _ _) H1), (proj2 (String.eqb_neq _ _) H2),
               (proj2 (String.eqb_neq _ _) H3), (proj2 (String.eqb_neq _ _) H4).
  - intros severities. split; [apply get_alerts_vuln_report_of|].
    intros Hascii. by rewrite !get_alerts_vuln_report_of, (total_points_upper _ Hascii).
  - intros bound.
    exists (repeat "critical" (Z.to_nat (Z.max 0 bound) + 1)), 
           (Z.of_nat (Z.to_nat (Z.max 0 bound) + 1) * 2000).
    split; [|lia].
    by rewrite get_alerts_vuln_report_of, total_points_repeat.
Qed.

Lemma C4_vulnerability_score_witness :
  result (get_alerts_vuln (report_of ["HIGH"; "low"; "garbage"; "Critical"; ""; "medium"])) =
    Return 2620 ∧
  result (get_alerts_vuln
            (report_of (str_upper <$> ["HIGH"; "low"; "garbage"; "Critical"; ""; "medium"]))) =
    result (get_alerts_vuln (report_of ["HIGH"; "low"; "garbage"; "Critical"; ""; "medium"])).
Proof.
  split.
  - exact (proj1 C4_vulnerability_score
             (report_of ["HIGH"; "low"; "garbage"; "Critical"; ""; "medium"])
             (finding <$> ["HIGH"; "low"; "garbage"; "Critical"; ""; "medium"])
             eq_refl eq_refl).
  - exact (proj2 (proj1 (proj2 (proj2 C4_vulnerability_score))
                    ["HIGH"; "low"; "garbage"; "Critical"; ""; "medium"]) eq_refl).
Defined.

(** C7, as stated, fails: an entry without the ["Vulnerability"] wrapper
    makes [get_alerts_vuln] raise [KeyError], a severity that is a number
    makes it raise [AttributeError]; [main] exits with ScriptFailure. *)
Lemma C7_malformed_entry_counterexample :
  result (get_alerts_vuln report_bare_entry) = Raise (KeyError "Vulnerability") ∧
  ¬ returns (result (get_alerts_vuln report_bare_entry)) ∧
  exit_code (main sample_args (sample_world report_bare_entry)) = 10 ∧
  result (get_alerts_vuln report_numeric_severity) = Raise AttributeError.
Proof.
  split_and!; try done. by intros [x Hx].
Qed.

(** C7, amended — On a list of vulnerability entries [get_alerts_vuln]
    returns an integer exactly when every entry is a dictionary holding a
    ["Vulnerability"] dictionary whose ["Product"] is a dictionary or
    missing and whose severity places, as far as the chain consults them,
    hold strings or nothing ([typed_finding]); a null list scores 0; an
    entry whose details are missing or no dictionary, or hold no severity
    in any of the three places, contributes zero. *)
Theorem C7_scoring_domain :
  (∀ (self : ScanReport) (vulnerabilities : list pyval),
     self !! "Vulnerabilities" = Some (PList vulnerabilities) →
     (returns (result (get_alerts_vuln self)) ↔
      forallb typed_finding vulnerabilities = true)) ∧
  (∀ self : ScanReport,
     self !! "Vulnerabilities" = Some PNone →
     result (get_alerts_vuln self) = Return 0) ∧
  (∀ (vulnerability : pyval) (vuln_score : Z),
     typed_finding vulnerability = true →
     isinstance_dict (finding_details vulnerability) = false →
     result (vuln_step vulnerability vuln_score) = Return vuln_score) ∧
  (∀ (vulnerability : pyval) (dd : gmap string pyval) (vuln_score : Z),
     typed_finding vulnerability = true →
     finding_details vulnerability = PDict dd →
     Forall (λ c, c = None ∨ c = Some PNone) (severity_candidates dd) →
     result (vuln_step vulnerability vuln_score) = Return vuln_score).
Proof.
  split_and!.
  - intros self vs Hv. rewrite (get_alerts_vuln_list _ _ Hv). split.
    + intros [r Hr]. by apply (vuln_loop_returns _ _ _ Hr).
    + intros Hty. rewrite (vuln_loop_typed _ _ Hty). by eexists.
  - intros self Hv. by rewrite (get_alerts_vuln_null _ Hv).
  - intros v acc Hty Hd. rewrite (vuln_step_typed _ _ Hty).
    unfold finding_label. destruct (finding_details v); try done; cbn; f_equal; lia.
  - intros v dd acc Hty Hd Hc. rewrite (vuln_step_typed _ _ Hty).
    unfold finding_label. rewrite Hd. cbn [details_severity].
    assert (first_not_None (severity_candidates dd) = PStr "") as ->.
    { induction Hc as [|c cs [->| ->] _ IH]; done. }
    cbn. f_equal. lia.
Qed.

Lemma C7_scoring_domain_witness :
  returns (result (get_alerts_vuln
    {[ "Vulnerabilities" := PList [finding "low"; PDict {[ "Vulnerability" := PDict ∅ ]}];
       "Detections" := PNone ]})).
Proof.
  apply (proj1 C7_scoring_domain _
           [finding "low"; PDict {[ "Vulnerability" := PDict ∅ ]}]); reflexivity.
Defined.

(* ===================================================================== *)
(** ** Polling for the report *)
(* ===================================================================== *)

(** C8 — [get_scanreport] with [retry_count] attempts sleeps 10 seconds
    before each call of the scanning service, goes on after every answer
    whose status is not 200, and returns the report built from the first
    answer with status 200; when none of the attempts finds the report
    ready it raises [RetryExhaustedError] with a message that names
    [retry_count], and [main] exits with ScriptFailure (10). *)
Theorem C8_fetcher :
  (∀ (service : nat → response) (repository image_tag : string) (max_attempts : Z),
     (∀ k : nat,
        (k < Z.to_nat max_attempts)%nat →
        (∀ i, (i < k)%nat → resp_status_code (service i) ≠ 200) →
        resp_status_code (service k) = 200 →
        result (get_scanreport service repository image_tag max_attempts) =
          Return (resp_body (service k)) ∧
        io_events (trace (get_scanreport service repository image_tag max_attempts)) =
          mjoin (replicate (S k) [Sleep 10; GetAssessment repository image_tag])) ∧
     ((∀ i, (i < Z.to_nat max_attempts)%nat → resp_status_code (service i) ≠ 200) →
        result (get_scanreport service repository image_tag max_attempts) =
          Raise (RetryExhaustedError
                   ("Report was not completed after " ++ str_of_int max_attempts ++
                    " retries. Use -R or --retry_count to increase the number of retries")%string) ∧
        io_events (trace (get_scanreport service repository image_tag max_attempts)) =
          mjoin (replicate (Z.to_nat max_attempts) [Sleep 10; GetAssessment repository image_tag]))) ∧
  (∀ (a : Args) (w : World),
     (∀ i, (i < Z.to_nat (retry_count a))%nat → resp_status_code (falcon w i) ≠ 200) →
     exit_code (main a w) = value ScriptFailure).
Proof.
  split.
  - intros service repository image_tag max_attempts. split.
    + intros k Hk Hnot Hready. by apply get_scanreport_ready.
    + intros Hnot. by apply get_scanreport_exhausted.
  - intros a w Hnot.
    destruct (get_scanreport_exhausted (falcon w) (repo a) (tag a) (retry_count a) Hnot)
      as [Hres _].
    by apply (main_not_fetched _ _ _ Hres).
Qed.

Lemma C8_fetcher_witness :
  result (get_scanreport never_ready "repo" "latest" 3) =
    Raise (RetryExhaustedError
      "Report was not completed after 3 retries. Use -R or --retry_count to increase the number of retries") ∧
  io_events (trace (get_scanreport never_ready "repo" "latest" 3)) =
    [Sleep 10; GetAssessment "repo" "latest";
     Sleep 10; GetAssessment "repo" "latest";
     Sleep 10; GetAssessment "repo" "latest"] ∧
  exit_code (main (mkArgs "repo" "latest" "500" None 3 false)
                  (mkWorld never_ready (λ _, Raise ValueError) None)) = 10.
Proof.
  split_and!.
  - refine (proj1 (proj2 (proj1 C8_fetcher never_ready "repo" "latest" 3) _)).
    intros i _. discriminate.
  - refine (proj2 (proj2 (proj1 C8_fetcher never_ready "repo" "latest" 3) _)).
    intros i _. discriminate.
  - refine (proj2 C8_fetcher (mkArgs "repo" "latest" "500" None 3 false)
              (mkWorld never_ready (λ _, Raise ValueError) None) _).
    intros i _. discriminate.
Defined.

(* ===================================================================== *)
(** ** Misconfigurations and the status *)
(* ===================================================================== *)

Lemma detection_is_typed (is_match : string → bool) (d : pyval) :
  detection_is is_match d = true → typed_detection d = true.
Proof.
  destruct d as [ | | | | | |e]; try done. cbn.
  destruct (e !! "Detection") as [[ | | | | | |t]|]; try done.
  by destruct (t !! "Type") as [[ | | | |s| | ]|].
Qed.

Lemma detection_is_misconfig_only (d : pyval) :
  detection_is is_misconfig d = true →
  detection_is is_malware d = false ∧ detection_is is_secret d = false.
Proof.
  destruct d as [ | | | | | |e]; try done. cbn.
  destruct (e !! "Detection") as [[ | | | | | |t]|]; try done.
  destruct (t !! "Type") as [[ | | | |s| | ]|]; try done.
  unfold is_misconfig, is_malware, is_secret.
  intros [->%String.eqb_eq| ->%String.eqb_eq]%orb_prop; done.
Qed.

Lemma existsb_insert_false (f : pyval → bool) (before after : list pyval) (d : pyval) :
  f d = false → existsb f (before ++ d :: after) = existsb f (before ++ after).
Proof.
  intros Hd. rewrite !existsb_app. cbn. by rewrite Hd.
Qed.

Lemma forallb_insert_true (f : pyval → bool) (before after : list pyval) (d : pyval) :
  f d = true → forallb f (before ++ d :: after) = forallb f (before ++ after).
Proof.
  intros Hd. rewrite !forallb_app. cbn. by rewrite Hd.
Qed.

Lemma get_alerts_vuln_insert_detections (self : ScanReport) (x y : pyval) :
  get_alerts_vuln (<["Detections" := x]> self) = get_alerts_vuln (<["Detections" := y]> self).
Proof.
  unfold get_alerts_vuln, py_getitem, vuln_str_key_1.
  by rewrite !lookup_insert_ne.
Qed.

Lemma get_alerts_malware_typed (self : ScanReport) (detections : list pyval) :
  self !! "Detections" = Some (PList detections) →
  forallb typed_detection detections = true →
  result (get_alerts_malware self) =
  Return (if existsb (detection_is is_malware) detections then value Malware else 0).
Proof.
  intros Hd Hty. scan_rewrite scan_detections_typed. by destruct (existsb _ _).
Qed.

Lemma get_alerts_secrets_typed (self : ScanReport) (detections : list pyval) :
  self !! "Detections" = Some (PList detections) →
  forallb typed_detection detections = true →
  result (get_alerts_secrets self) =
  Return (if existsb (detection_is is_secret) detections then value Secrets else 0).
Proof.
  intros Hd Hty. scan_rewrite scan_detections_typed. by destruct (existsb _ _).
Qed.

Lemma get_alerts_misconfig_typed (self : ScanReport) (detections : list pyval) :
  self !! "Detections" = Some (PList detections) →
  forallb typed_detection detections = true →
  result (get_alerts_misconfig self) = Return 0.
Proof.
  intros Hd Hty. scan_rewrite scan_detections_typed. by destruct (existsb _ _).
Qed.

Lemma status_code_result (self : ScanReport) :
  result (status_code self) =
  (vuln_code ← result (get_alerts_vuln self);
   mal_code ← result (get_alerts_malware self);
   sec_code ← result (get_alerts_secrets self);
   mcfg_code ← result (get_alerts_misconfig self);
   Return (Z.lor (Z.lor (Z.lor vuln_code mal_code) sec_code) mcfg_code)).
Proof.
  unfold status_code.
  rewrite result_bind. destruct (result (get_alerts_vuln self)); [|done].
  rewrite result_bind. destruct (result (get_alerts_malware self)); [|done].
  rewrite result_bind. destruct (result (get_alerts_secrets self)); [|done].
  rewrite result_bind. by destruct (result (get_alerts_misconfig self)).
Qed.

(** The outcome of the part of [main] that reads the report depends on
    the report through the outcomes of the four scans only. *)
Lemma main_report_scans (a : Args) (w : World) (r1 r0 : ScanReport) :
  result (get_alerts_vuln r1) = result (get_alerts_vuln r0) →
  result (get_alerts_secrets r1) = result (get_alerts_secrets r0) →
  result (get_alerts_malware r1) = result (get_alerts_malware r0) →
  result (get_alerts_misconfig r1) = result (get_alerts_misconfig r0) →
  result (main_report a w r1) = result (main_report a w r0).
Proof.
  intros Hv Hs Hm Hc. unfold main_report.
  rewrite !(result_bind (if plugin a then _ else _)).
  destruct (plugin a); [done|]. cbn [result mret Py_ret].
  rewrite !(result_bind (if truthy (json_report a) then _ else _)).
  assert (∀ r : ScanReport,
            result (if truthy (json_report a)
                    then export (write_error w) r (default "" (json_report a))
                    else mret tt) =
            match (if truthy (json_report a) then write_error w else None) with
            | Some e => Raise e
            | None => Return tt
            end) as Hexport.
  { intros r. destruct (truthy (json_report a)); [|done].
    by destruct (write_error w). }
  rewrite !Hexport.
  destruct (if truthy (json_report a) then write_error w else None); [done|].
  rewrite !(result_bind (get_alerts_vuln _)), Hv.
  destruct (result (get_alerts_vuln r0)); [|done].
  rewrite !(result_bind (get_alerts_secrets _)), Hs.
  destruct (result (get_alerts_secrets r0)); [|done].
  rewrite !(result_bind (get_alerts_malware _)), Hm.
  destruct (result (get_alerts_malware r0)); [|done].
  rewrite !(result_bind (get_alerts_misconfig _)), Hc.
  by destruct (result (get_alerts_misconfig r0)).
Qed.

(** C9, as stated, fails on a report with a detection whose type is no
    string: there [get_alerts_misconfig] raises instead of returning 0, and
    a misconfiguration finding changes the exit code.  With a secret, a
    malware detection and then a type 7, the misconfiguration scan reaches
    the 7, raises [AttributeError], and [main] exits with 10; with a "cis"
    detection put in front the scan stops at it, and [main] exits with 3. *)
Lemma C9_misconfig_masks_counterexample :
  result (get_alerts_misconfig report_secret_malware_number) = Raise AttributeError ∧
  exit_code (main sample_args (sample_world report_secret_malware_number)) = 10 ∧
  detection_is is_misconfig (detection (PStr "cis")) = true ∧
  result (get_alerts_misconfig report_cis_secret_malware_number) = Return 0 ∧
  exit_code (main sample_args (sample_world report_cis_secret_malware_number)) = 3.
Proof. by split_and!. Qed.

(** C9, amended — [get_alerts_misconfig] never returns anything but 0
    (on a match it assigns [ScanStatusCode.Success.value]), and on every
    list of detections of the expected shape (each type a string or
    missing) it does return 0; so the combined status is the bitwise OR
    of the other three codes, and a misconfiguration finding put into
    such a list changes neither the combined status nor the exit code. *)
Theorem C9_misconfig_returns_zero :
  value Success = 0 ∧
  (∀ (self : ScanReport) (c : Z),
     result (get_alerts_misconfig self) = Return c → c = 0) ∧
  (∀ (self : ScanReport) (detections : list pyval),
     self !! "Detections" = Some (PList detections) →
     forallb typed_detection detections = true →
     result (get_alerts_misconfig self) = Return 0) ∧
  (∀ (self : ScanReport) (x : Z),
     result (status_code self) = Return x →
     ∃ vuln_code mal_code sec_code,
       result (get_alerts_vuln self) = Return vuln_code ∧
       result (get_alerts_malware self) = Return mal_code ∧
       result (get_alerts_secrets self) = Return sec_code ∧
       x = Z.lor (Z.lor vuln_code mal_code) sec_code) ∧
  (∀ (self : ScanReport) (before after : list pyval) (d : pyval) (a : Args) (w : World),
     forallb typed_detection (before ++ after) = true →
     detection_is is_misconfig d = true →
     result (status_code (<["Detections" := PList (before ++ d :: after)]> self)) =
       result (status_code (<["Detections" := PList (before ++ after)]> self)) ∧
     exit_code (try_except
                  (main_report a w (<["Detections" := PList (before ++ d :: after)]> self))
                  main_handler) =
     exit_code (try_except
                  (main_report a w (<["Detections" := PList (before ++ after)]> self))
                  main_handler)).
Proof.
  split_and!.
  - done.
  - intros self c. apply get_alerts_misconfig_returns.
  - apply get_alerts_misconfig_typed.
  - intros self x. rewrite status_code_result.
    destruct (result (get_alerts_vuln self)) as [v|]; [|done].
    destruct (result (get_alerts_malware self)) as [m|]; [|done].
    destruct (result (get_alerts_secrets self)) as [s|]; [|done].
    destruct (result (get_alerts_misconfig self)) as [c|] eqn:Hc; [|done].
    apply get_alerts_misconfig_returns in Hc as ->.
    cbn. intros [= <-]. exists v, m, s. by rewrite Z.lor_0_r.
  - intros self before after d a w Hty Hd.
    destruct (detection_is_misconfig_only d Hd) as [Hnm Hns].
    pose proof (detection_is_typed _ _ Hd) as Htd.
    assert (forallb typed_detection (before ++ d :: after) = true) as Hty1
      by (by rewrite (forallb_insert_true _ _ _ _ Htd)).
    set (r1 := <["Detections" := PList (before ++ d :: after)]> self).
    set (r0 := <["Detections" := PList (before ++ after)]> self).
    assert (r1 !! "Detections" = Some (PList (before ++ d :: after))) as H1
      by apply lookup_insert_eq.
    assert (r0 !! "Detections" = Some (PList (before ++ after))) as H0
      by apply lookup_insert_eq.
    assert (result (get_alerts_vuln r1) = result (get_alerts_vuln r0)) as Hv
      by (unfold r1, r0; f_equal; apply get_alerts_vuln_insert_detections).
    assert (result (get_alerts_malware r1) = result (get_alerts_malware r0)) as Hm.
    { rewrite (get_alerts_malware_typed _ _ H1 Hty1), (get_alerts_malware_typed _ _ H0 Hty).
      by rewrite (existsb_insert_false _ _ _ _ Hnm). }
    assert (result (get_alerts_secrets r1) = result (get_alerts_secrets r0)) as Hs.
    { rewrite (get_alerts_secrets_typed _ _ H1 Hty1), (get_alerts_secrets_typed _ _ H0 Hty).
      by rewrite (existsb_insert_false _ _ _ _ Hns). }
    assert (result (get_alerts_misconfig r1) = result (get_alerts_misconfig r0)) as Hc.
    { by rewrite (get_alerts_misconfig_typed _ _ H1 Hty1),
                 (get_alerts_misconfig_typed _ _ H0 Hty). }
    split.
    + by rewrite !status_code_result, Hv, Hm, Hs, Hc.
    + pose proof (main_report_scans a w r1 r0 Hv Hs Hm Hc) as Hr.
      unfold exit_code, try_except. rewrite Hr.
      destruct (result (main_report a w r0)) as [[]|e] eqn:He; [by rewrite Hr, He|].
      destruct (main_handler e); [done|]. by rewrite Hr, He.
Qed.

Lemma C9_misconfig_returns_zero_witness :
  result (get_alerts_misconfig report_misconfigured) = Return 0 ∧
  result (status_code report_misconfigured) = Return 0.
Proof.
  split.
  - exact (proj1 (proj2 (proj2 C9_misconfig_returns_zero)) report_misconfigured
             [detection (PStr "Misconfiguration")] eq_refl eq_refl).
  - reflexivity.
Defined.

(* ===================================================================== *)
(** ** More on the report fetcher *)
(* ===================================================================== *)

(** X1 — With a retry count of zero or less [get_scanreport] neither
    sleeps nor calls the scanning service: it logs its opening line and
    raises [RetryExhaustedError], also when the service has the report
    ready. *)
Theorem get_scanreport_no_attempts (service : nat → response)
    (repository image_tag : string) (max_attempts : Z) :
  max_attempts ≤ 0 →
  get_scanreport service repository image_tag max_attempts =
  mkPy [Log INFO "Downloading Image Scan Report" []]
       (Raise (RetryExhaustedError (retry_message max_attempts))).
Proof.
  intros Hn. unfold get_scanreport, py_range.
  replace (Z.to_nat max_attempts) with 0%nat by lia. reflexivity.
Qed.

Lemma get_scanreport_no_attempts_witness :
  get_scanreport (λ _, mkResponse 200 ∅) "repo" "latest" (-2) =
  mkPy [Log INFO "Downloading Image Scan Report" []]
       (Raise (RetryExhaustedError
          "Report was not completed after -2 retries. Use -R or --retry_count to increase the number of retries")).
Proof.
  apply (get_scanreport_no_attempts (λ _, mkResponse 200 ∅) "repo" "latest" (-2)). lia.
Defined.

Lemma first_ready_or_none (service : nat → response) (n : nat) :
  (∀ i, (i < n)%nat → resp_status_code (service i) ≠ 200) ∨
  (∃ k, (k < n)%nat ∧ resp_status_code (service k) = 200 ∧
        ∀ i, (i < k)%nat → resp_status_code (service i) ≠ 200).
Proof.
  induction n as [|n [Hnone|(k & Hk & Hready & Hbefore)]].
  - left. intros i Hi. lia.
  - destruct (decide (resp_status_code (service n) = 200)) as [Hn|Hn].
    + right. exists n. split_and!; [lia|done|done].
    + left. intros i Hi. destruct (decide (i = n)) as [->|]; [done|]. apply Hnone. lia.
  - right. exists k. split_and!; [lia|done|done].
Qed.

(** X2 — Whatever the scanning service answers, [get_scanreport] makes
    at most [retry_count] calls, each one right after a sleep of 10
    seconds, and ends in one of two ways: it returns the body of the
    first answer with status 200, having made no call after it, or it
    raises [RetryExhaustedError] after exactly [retry_count] calls none
    of which had status 200. *)
Theorem get_scanreport_bounded (service : nat → response)
    (repository image_tag : string) (max_attempts : Z) :
  ∃ calls : nat,
    (calls ≤ Z.to_nat max_attempts)%nat ∧
    io_events (trace (get_scanreport service repository image_tag max_attempts)) =
      mjoin (replicate calls [Sleep 10; GetAssessment repository image_tag]) ∧
    ((∃ k, calls = S k ∧
           resp_status_code (service k) = 200 ∧
           (∀ i, (i < k)%nat → resp_status_code (service i) ≠ 200) ∧
           result (get_scanreport service repository image_tag max_attempts) =
             Return (resp_body (service k))) ∨
     (calls = Z.to_nat max_attempts ∧
      (∀ i, (i < calls)%nat → resp_status_code (service i) ≠ 200) ∧
      result (get_scanreport service repository image_tag max_attempts) =
        Raise (RetryExhaustedError (retry_message max_attempts)))).
Proof.
  destruct (first_ready_or_none service (Z.to_nat max_attempts))
    as [Hnone|(k & Hk & Hready & Hbefore)].
  - destruct (get_scanreport_exhausted service repository image_tag max_attempts Hnone)
      as [Hres Htr].
    exists (Z.to_nat max_attempts). split_and!; [lia|done|]. by right.
  - destruct (get_scanreport_ready service repository image_tag max_attempts k
                Hk Hbefore Hready) as [Hres Htr].
    exists (S k). split_and!; [lia|done|]. left. by exists k.
Qed.

(* ===================================================================== *)
(** ** More on main *)
(* ===================================================================== *)

Lemma detection_type_lower_raises (detection : pyval) (e : pyexn) :
  detection_type_lower detection = Raise e → is_Exception e = true.
Proof.
  unfold detection_type_lower. intros H. repeat raises_step.
Qed.

Lemma detections_loop_raises (is_match : string → bool) (alert : Py unit) (code : Z)
    (detections : list pyval) (det_code : Z) (e : pyexn) :
  result alert = Return tt →
  result (detections_loop is_match alert code detections det_code) = Raise e →
  is_Exception e = true.
Proof.
  intros Ha. induction detections as [|d rest IH]; cbn [detections_loop]; [done|].
  destruct (detection_type_lower d) as [ty|e'] eqn:Hd.
  - destruct (is_match ty); [|done].
    rewrite result_bind, Ha. done.
  - pose proof (detection_type_lower_raises _ _ Hd) as He'.
    destruct e'; try done; by intros [= <-].
Qed.

Lemma scan_detections_raises (opening : string) (is_match : string → bool)
    (alert : Py unit) (code : Z) (self : ScanReport) (e : pyexn) :
  result alert = Return tt →
  result (scan_detections opening is_match alert code self) = Raise e →
  is_Exception e = true.
Proof.
  intros Ha. unfold scan_detections, py_getitem, detect_str_key.
  destruct (self !! "Detections") as [v|]; cbn; [|by intros [= <-]].
  destruct v; cbn; try done; try (by intros [= <-]);
    by apply detections_loop_raises.
Qed.

Lemma get_alerts_secrets_raises (self : ScanReport) (e : pyexn) :
  result (get_alerts_secrets self) = Raise e → is_Exception e = true.
Proof. by apply scan_detections_raises. Qed.

Lemma get_alerts_malware_raises (self : ScanReport) (e : pyexn) :
  result (get_alerts_malware self) = Raise e → is_Exception e = true.
Proof. by apply scan_detections_raises. Qed.

Lemma get_alerts_misconfig_raises (self : ScanReport) (e : pyexn) :
  result (get_alerts_misconfig self) = Raise e → is_Exception e = true.
Proof. by apply scan_detections_raises. Qed.

(** The part of [main] that reads the report never returns: it leaves
    through [sys.exit] with one of the four codes or through an exception
    of the scans, of [int] or of the export. *)
Lemma main_report_leaves_scans (a : Args) (w : World) (self : ScanReport) :
  plugin a = false → export_succeeds a w →
  (∀ s e, py_int w s = Raise e → is_Exception e = true) →
  ∃ e, result (main_report a w self) = Raise e ∧
       (is_Exception e = true ∨
        e = SystemExit 0 ∨ e = SystemExit 1 ∨ e = SystemExit 2 ∨ e = SystemExit 3).
Proof.
  intros Hp Hex Hi. rewrite (main_report_result _ _ _ Hp Hex).
  destruct (result (get_alerts_vuln self)) as [v|e] eqn:Hv;
    [|exists e; split; [done|left; by apply (get_alerts_vuln_raises _ _ Hv)]].
  destruct (result (get_alerts_secrets self)) as [s|e] eqn:Hs;
    [|exists e; split; [done|left; by apply (get_alerts_secrets_raises _ _ Hs)]].
  destruct (result (get_alerts_malware self)) as [m|e] eqn:Hm;
    [|exists e; split; [done|left; by apply (get_alerts_malware_raises _ _ Hm)]].
  destruct (result (get_alerts_misconfig self)) as [c|e] eqn:Hc;
    [|exists e; split; [done|left; by apply (get_alerts_misconfig_raises _ _ Hc)]].
  cbn [mbind outcome_bind].
  destruct (s =? value Secrets); [eexists; split; [done|auto]|].
  destruct (m =? value Malware); [eexists; split; [done|auto]|].
  destruct (py_int w (score a)) as [t|e] eqn:Ht;
    [|exists e; split; [done|left; by apply (Hi _ _ Ht)]].
  cbn [mbind outcome_bind].
  destruct (v >=? t); eexists; (split; [done|auto]).
Qed.

Lemma main_report_leaves (a : Args) (w : World) (self : ScanReport) :
  (∀ e, write_error w = Some e → is_Exception e = true) →
  (∀ s e, py_int w s = Raise e → is_Exception e = true) →
  ∃ e, result (main_report a w self) = Raise e ∧
       (is_Exception e = true ∨
        e = SystemExit 0 ∨ e = SystemExit 1 ∨ e = SystemExit 2 ∨ e = SystemExit 3).
Proof.
  intros Hw Hi.
  destruct (plugin a) eqn:Hp.
  { exists (SystemExit 0). unfold main_report. rewrite Hp. split; [done|auto]. }
  destruct (truthy (json_report a)) eqn:Hj.
  - destruct (write_error w) as [e|] eqn:He.
    + exists e. split; [|left; by apply Hw].
      unfold main_report. rewrite Hp, Hj. unfold export. by rewrite He.
    + apply main_report_leaves_scans; [done| |done]. by intros _.
  - apply main_report_leaves_scans; [done| |done]. intros H. congruence.
Qed.

Lemma get_scanreport_leaves (service : nat → response) (repository image_tag : string)
    (max_attempts : Z) (e : pyexn) :
  result (get_scanreport service repository image_tag max_attempts) = Raise e →
  is_Exception e = true.
Proof.
  destruct (get_scanreport_bounded service repository image_tag max_attempts)
    as (calls & _ & _ & [(k & _ & _ & _ & ->)|(_ & _ & ->)]); [done|].
  by intros [= <-].
Qed.

Lemma main_not_fetched_result (a : Args) (w : World) (e : pyexn) :
  result (get_scanreport (falcon w) (repo a) (tag a) (retry_count a)) = Raise e →
  is_Exception e = true →
  result (main a w) = Raise (SystemExit (value ScriptFailure)).
Proof.
  intros Hf He. unfold main.
  apply (try_except_main_Exception _ e); [|done].
  by rewrite result_bind, Hf.
Qed.

(** X3 — [main] always leaves through [sys.exit], with one of the five
    codes 0, 1, 2, 3, 10, whatever the scanning service answers and
    whatever the report holds: it never returns normally, and no exception
    of the download, the scans, the export or [int(score)] gets past its
    [except] clauses.  (The export and [int] are taken to raise
    exceptions derived from [Exception] only.) *)
Theorem main_exit_codes (a : Args) (w : World) :
  (∀ e, write_error w = Some e → is_Exception e = true) →
  (∀ s e, py_int w s = Raise e → is_Exception e = true) →
  ∃ code, result (main a w) = Raise (SystemExit code) ∧
          exit_code (main a w) = code ∧
          code ∈ [0; 1; 2; 3; 10].
Proof.
  intros Hw Hi. unfold exit_code.
  destruct (result (get_scanreport (falcon w) (repo a) (tag a) (retry_count a)))
    as [self|e] eqn:Hf.
  - rewrite (main_fetched a w self Hf).
    destruct (main_report_leaves a w self Hw Hi) as (e & Hr & [He|He]).
    + rewrite (try_except_main_Exception _ _ Hr He).
      exists 10. split_and!; [done|done|set_solver].
    + destruct He as [->|[->|[->| ->]]];
        rewrite (try_except_main_SystemExit _ _ Hr);
        eexists; (split_and!; [done|done|set_solver]).
  - rewrite (main_not_fetched_result a w e Hf (get_scanreport_leaves _ _ _ _ _ Hf)).
    exists 10. split_and!; [done|done|set_solver].
Qed.

Lemma main_exit_codes_witness :
  ∃ code, result (main sample_args (sample_world report_bare_entry)) = Raise (SystemExit code) ∧
          exit_code (main sample_args (sample_world report_bare_entry)) = code ∧
          code ∈ [0; 1; 2; 3; 10].
Proof.
  apply main_exit_codes.
  - intros e H. discriminate H.
  - intros s e. cbn. destruct (String.eqb s "500"); intros H; [discriminate H|].
    injection H as <-. reflexivity.
Defined.

(** X4 — In plugin mode [main] prints the downloaded report and exits
    with 0 at once: whatever the report holds, no scan runs, nothing is
    exported even when a JSON report was asked for, and the threshold is
    not read. *)
Theorem main_plugin_mode (a : Args) (w : World) (self : ScanReport) :
  plugin a = true →
  main_report a w self = mkPy [PrintJson self] (Raise (SystemExit 0)) ∧
  (fetched a w self →
   exit_code (main a w) = 0 ∧
   trace (main a w) =
     trace (get_scanreport (falcon w) (repo a) (tag a) (retry_count a)) ++ [PrintJson self]).
Proof.
  intros Hp.
  assert (main_report a w self = mkPy [PrintJson self] (Raise (SystemExit 0))) as Hr
    by (unfold main_report; by rewrite Hp).
  split; [done|]. intros Hf. unfold exit_code, main.
  unfold fetched in Hf. rewrite (bind_Return _ _ _ Hf), Hr. done.
Qed.

Lemma main_plugin_mode_witness :
  exit_code (main (mkArgs "repo" "latest" "not a number" (Some "report.json") 100 true)
                  (sample_world report_bare_entry)) = 0.
Proof.
  apply (main_plugin_mode
           (mkArgs "repo" "latest" "not a number" (Some "report.json") 100 true)
           (sample_world report_bare_entry) report_bare_entry); reflexivity.
Defined.

(** X5 — When a JSON report is asked for (and plugin mode is off), the
    export is the first thing [main] does with the downloaded report,
    before any scan: the report is written also when a scan fails
    afterwards, and an export that raises ends the run with ScriptFailure
    (10) before any scan has run. *)
Theorem main_export_first (a : Args) (w : World) (self : ScanReport) (filename : string) :
  plugin a = false → json_report a = Some filename → filename ≠ "" →
  (∃ rest, trace (main_report a w self) = WriteJson filename self :: rest) ∧
  (∀ e, write_error w = Some e →
     main_report a w self = mkPy [WriteJson filename self] (Raise e) ∧
     (is_Exception e = true → fetched a w self →
      exit_code (main a w) = value ScriptFailure)).
Proof.
  intros Hp Hj Hne.
  assert (truthy (json_report a) = true) as Ht.
  { rewrite Hj. cbn. by apply negb_true_iff, String.eqb_neq. }
  split.
  - unfold main_report. rewrite Hp, Ht, Hj. cbn [default].
    rewrite trace_bind. cbn [result trace mret Py_ret app].
    rewrite trace_bind. unfold export.
    destruct (write_error w); cbn [result trace mbind Py_bind emit raise mret Py_ret app];
      eauto.
  - intros e He.
    assert (main_report a w self = mkPy [WriteJson filename self] (Raise e)) as Hr.
    { unfold main_report, export. by rewrite Hp, Ht, Hj, He. }
    split; [done|]. intros Hex Hf. unfold exit_code.
    rewrite (main_fetched _ _ _ Hf), (try_except_main_Exception _ e); [done| |done].
    by rewrite Hr.
Qed.

Lemma main_export_first_witness :
  ∃ rest,
    trace (main_report (mkArgs "repo" "latest" "500" (Some "report.json") 100 false)
             (sample_world report_bare_entry) report_bare_entry) =
    WriteJson "report.json" report_bare_entry :: rest.
Proof.
  refine (proj1 (main_export_first
                   (mkArgs "repo" "latest" "500" (Some "report.json") 100 false)
                   (sample_world report_bare_entry) report_bare_entry "report.json"
                   _ _ _)); [reflexivity|reflexivity|discriminate].
Defined.

(** X6 — The secrets and malware verdicts do not read the threshold:
    with the scans returning, a set secrets flag exits with 3 and
    otherwise a set malware flag exits with 2 whatever [int(score)] would
    do; only a report with neither makes [main] evaluate [int(score)],
    and a score string that is no integer then ends the run with
    ScriptFailure (10). *)
Theorem main_alerts_ignore_score (a : Args) (w : World) (self : ScanReport) (v s m c : Z) :
  fetched a w self → plugin a = false → export_succeeds a w →
  result (get_alerts_vuln self) = Return v →
  result (get_alerts_secrets self) = Return s →
  result (get_alerts_malware self) = Return m →
  result (get_alerts_misconfig self) = Return c →
  (s ≠ 0 → exit_code (main a w) = value Secrets) ∧
  (s = 0 → m ≠ 0 → exit_code (main a w) = value Malware) ∧
  (s = 0 → m = 0 →
   ∀ e, py_int w (score a) = Raise e → is_Exception e = true →
        exit_code (main a w) = value ScriptFailure).
Proof.
  intros Hf Hp Hex Hv Hs Hm Hc.
  assert (s = value Secrets ∨ s = 0) as Hs3 by (by apply get_alerts_secrets_returns with self).
  assert (m = value Malware ∨ m = 0) as Hm2 by (by apply get_alerts_malware_returns with self).
  pose proof (main_report_result a w self Hp Hex) as Hr.
  rewrite Hv, Hs, Hm, Hc in Hr. cbn [mbind outcome_bind] in Hr.
  unfold exit_code. rewrite (main_fetched _ _ _ Hf).
  split_and!.
  - intros Hne. destruct Hs3 as [->|]; [|done].
    by rewrite (try_except_main_SystemExit _ _ Hr).
  - intros -> Hne. destruct Hm2 as [->|]; [|done].
    by rewrite (try_except_main_SystemExit _ _ Hr).
  - intros -> -> e He Hexn. cbn in Hr. rewrite He in Hr.
    by rewrite (try_except_main_Exception _ _ Hr Hexn).
Qed.

Lemma main_alerts_ignore_score_witness :
  exit_code (main (mkArgs "repo" "latest" "not a number" None 100 false)
                  (sample_world sample_both)) = 3.
Proof.
  refine (proj1 (main_alerts_ignore_score
                   (mkArgs "repo" "latest" "not a number" None 100 false)
                   (sample_world sample_both) sample_both 2000 3 2 0 _ _ _ _ _ _ _) _);
    try reflexivity; done.
Defined.

(** X7 — A scan that raises ends the run with ScriptFailure (10), no
    matter what the other scans found: all four scans run before the
    verdict, so a report with a secret or malware detection still exits
    with 10 when its vulnerability list or a later detection cannot be
    read. *)
Theorem main_scan_failure (a : Args) (w : World) (self : ScanReport) :
  fetched a w self → plugin a = false → export_succeeds a w →
  ¬ (returns (result (get_alerts_vuln self)) ∧
     returns (result (get_alerts_secrets self)) ∧
     returns (result (get_alerts_malware self)) ∧
     returns (result (get_alerts_misconfig self))) →
  exit_code (main a w) = value ScriptFailure.
Proof.
  intros Hf Hp Hex Hnot.
  pose proof (main_report_result a w self Hp Hex) as Hr.
  unfold exit_code. rewrite (main_fetched _ _ _ Hf).
  destruct (result (get_alerts_vuln self)) as [v|e] eqn:Hv.
  2: { by rewrite (try_except_main_Exception _ e Hr (get_alerts_vuln_raises _ _ Hv)). }
  destruct (result (get_alerts_secrets self)) as [s|e] eqn:Hs.
  2: { by rewrite (try_except_main_Exception _ e Hr (get_alerts_secrets_raises _ _ Hs)). }
  destruct (result (get_alerts_malware self)) as [m|e] eqn:Hm.
  2: { by rewrite (try_except_main_Exception _ e Hr (get_alerts_malware_raises _ _ Hm)). }
  destruct (result (get_alerts_misconfig self)) as [c|e] eqn:Hc.
  2: { by rewrite (try_except_main_Exception _ e Hr (get_alerts_misconfig_raises _ _ Hc)). }
  exfalso. apply Hnot. unfold returns. split_and!; by eexists.
Qed.

Lemma main_scan_failure_witness :
  exit_code (main sample_args
    (sample_world {[ "Vulnerabilities" := PList [PDict ∅];
                     "Detections" := PList [detection (PStr "secret")] ]})) = 10.
Proof.
  apply (main_scan_failure sample_args _
           {[ "Vulnerabilities" := PList [PDict ∅];
              "Detections" := PList [detection (PStr "secret")] ]});
    [reflexivity|reflexivity|done|].
  intros [[v Hv] _]. discriminate Hv.
Defined.

(* ===================================================================== *)
(** ** More on the score *)
(* ===================================================================== *)

Lemma total_points_bounds (labels : list string) :
  0 ≤ total_points labels ≤ 2000 * Z.of_nat (length labels) ∧
  (20 | total_points labels).
Proof.
  induction labels as [|s labels [IH1 IH2]].
  - split; [cbn; lia|]. by exists 0.
  - rewrite total_points_cons. cbn [length].
    assert ((20 | severity_points s) ∧ 0 ≤ severity_points s ≤ 2000) as [Hd Hb].
    { destruct (severity_points_values s) as [->|[->|[->|[->| ->]]]];
        (split; [|lia]);
        [by exists 1|by exists 5|by exists 25|by exists 100|by exists 0]. }
    split; [lia|]. by apply Z.divide_add_r.
Qed.

Lemma str_chars_cons (s : string) :
  s = "" ∨ ∃ c rest, str_chars s = PStr c :: rest.
Proof. destruct s; [by left|right; by eexists _, _]. Qed.

Lemma vuln_step_str (s : string) (vuln_score : Z) :
  vuln_step (PStr s) vuln_score = mkPy [] (Raise TypeError).
Proof. reflexivity. Qed.

(** What [get_alerts_vuln] returns it returns for a list of readable
    findings (or for nothing to read at all): the sum of their points. *)
Lemma get_alerts_vuln_returns (self : ScanReport) (v : Z) :
  result (get_alerts_vuln self) = Return v →
  ∃ labels : list string, v = total_points labels.
Proof.
  unfold get_alerts_vuln, py_getitem, vuln_str_key_1.
  destruct (self !! "Vulnerabilities") as [x|]; cbn; [|done].
  destruct x as [ | | | |s|items|d]; cbn; try done.
  - intros [= <-]. by exists [].
  - destruct (str_chars_cons s) as [->|(c & rest & ->)]; cbn.
    + intros [= <-]. by exists [].
    + done.
  - intros Hr. pose proof (vuln_loop_returns _ _ _ Hr) as Hty.
    rewrite (vuln_loop_typed _ _ Hty) in Hr. injection Hr as <-.
    eexists. by rewrite Z.add_0_l.
  - destruct (map_to_list d).*1 as [|k ks]; cbn.
    + intros [= <-]. by exists [].
    + done.
Qed.

(** X8 — A score that [get_alerts_vuln] returns is never negative and
    is a multiple of 20; on a list of findings it is at most 2000 times
    the number of findings. *)
Theorem get_alerts_vuln_bounds (self : ScanReport) (v : Z) :
  result (get_alerts_vuln self) = Return v →
  0 ≤ v ∧ (20 | v) ∧
  (∀ vulnerabilities, self !! "Vulnerabilities" = Some (PList vulnerabilities) →
     v ≤ 2000 * Z.of_nat (length vulnerabilities)).
Proof.
  intros Hr. split_and!.
  - destruct (get_alerts_vuln_returns _ _ Hr) as [labels ->].
    apply total_points_bounds.
  - destruct (get_alerts_vuln_returns _ _ Hr) as [labels ->].
    apply total_points_bounds.
  - intros vs Hv. rewrite (get_alerts_vuln_list _ _ Hv) in Hr.
    pose proof (vuln_loop_returns _ _ _ Hr) as Hty.
    rewrite (vuln_loop_typed _ _ Hty) in Hr. injection Hr as <-.
    rewrite Z.add_0_l.
    destruct (total_points_bounds (finding_label <$> vs)) as [[_ Hle] _].
    by rewrite length_fmap in Hle.
Qed.

Lemma get_alerts_vuln_bounds_witness :
  0 ≤ 2620 ∧ (20 | 2620) ∧
  (∀ vulnerabilities,
     report_of ["HIGH"; "low"; "garbage"; "Critical"; ""; "medium"] !! "Vulnerabilities" =
       Some (PList vulnerabilities) →
     2620 ≤ 2000 * Z.of_nat (length vulnerabilities)).
Proof.
  apply (get_alerts_vuln_bounds
           (report_of ["HIGH"; "low"; "garbage"; "Critical"; ""; "medium"]) 2620).
  reflexivity.
Defined.

Lemma total_points_Permutation (l1 l2 : list string) :
  l1 ≡ₚ l2 → total_points l1 = total_points l2.
Proof.
  induction 1 as [|s l1 l2 _ IH|s t l|l1 l2 l3 _ IH1 _ IH2].
  - done.
  - by rewrite !total_points_cons, IH.
  - rewrite !total_points_cons. lia.
  - by rewrite IH1.
Qed.

Lemma forallb_Permutation {A : Type} (f : A → bool) (l1 l2 : list A) :
  l1 ≡ₚ l2 → forallb f l1 = forallb f l2.
Proof.
  induction 1 as [|x l1 l2 _ IH|x y l|l1 l2 l3 _ IH1 _ IH2]; cbn.
  - done.
  - by rewrite IH.
  - by destruct (f x), (f y).
  - by rewrite IH1.
Qed.

Lemma existsb_Permutation {A : Type} (f : A → bool) (l1 l2 : list A) :
  l1 ≡ₚ l2 → existsb f l1 = existsb f l2.
Proof.
  induction 1 as [|x l1 l2 _ IH|x y l|l1 l2 l3 _ IH1 _ IH2]; cbn.
  - done.
  - by rewrite IH.
  - by destruct (f x), (f y).
  - by rewrite IH1.
Qed.

(** X9 — The score does not depend on the order of the findings: two
    reports whose lists of readable findings are permutations of each
    other get the same score. *)
Theorem get_alerts_vuln_order (self self' : ScanReport) (vs vs' : list pyval) :
  self !! "Vulnerabilities" = Some (PList vs) →
  self' !! "Vulnerabilities" = Some (PList vs') →
  vs ≡ₚ vs' →
  forallb typed_finding vs = true →
  result (get_alerts_vuln self') = result (get_alerts_vuln self).
Proof.
  intros Hv Hv' Hp Hty.
  assert (forallb typed_finding vs' = true) as Hty'
    by (by rewrite <- (forallb_Permutation _ _ _ Hp)).
  rewrite (get_alerts_vuln_list _ _ Hv), (get_alerts_vuln_list _ _ Hv').
  rewrite (vuln_loop_typed _ _ Hty), (vuln_loop_typed _ _ Hty').
  f_equal. f_equal. apply total_points_Permutation. by apply fmap_Permutation.
Qed.

Lemma get_alerts_vuln_order_witness :
  result (get_alerts_vuln (report_of ["low"; "high"; "x"])) =
  result (get_alerts_vuln (report_of ["high"; "x"; "low"])).
Proof.
  apply (get_alerts_vuln_order (report_of ["high"; "x"; "low"]) (report_of ["low"; "high"; "x"])
           (finding <$> ["high"; "x"; "low"]) (finding <$> ["low"; "high"; "x"]));
    [reflexivity|reflexivity| |reflexivity].
  cbn. rewrite (Permutation_swap (finding "low") (finding "x")).
  by rewrite (Permutation_swap (finding "low") (finding "high")).
Defined.

(** X10 — The score is additive and monotone: the score of two lists of
    readable findings put together is the sum of their scores, so adding
    findings never lowers a score. *)
Theorem get_alerts_vuln_additive (self self1 self2 : ScanReport) (vs1 vs2 : list pyval) :
  self !! "Vulnerabilities" = Some (PList (vs1 ++ vs2)) →
  self1 !! "Vulnerabilities" = Some (PList vs1) →
  self2 !! "Vulnerabilities" = Some (PList vs2) →
  forallb typed_finding vs1 = true →
  forallb typed_finding vs2 = true →
  ∃ v1 v2,
    result (get_alerts_vuln self1) = Return v1 ∧
    result (get_alerts_vuln self2) = Return v2 ∧
    result (get_alerts_vuln self) = Return (v1 + v2) ∧
    v1 ≤ v1 + v2.
Proof.
  intros Hv Hv1 Hv2 Hty1 Hty2.
  assert (forallb typed_finding (vs1 ++ vs2) = true) as Hty
    by (by rewrite forallb_app, Hty1, Hty2).
  exists (total_points (finding_label <$> vs1)), (total_points (finding_label <$> vs2)).
  rewrite (get_alerts_vuln_list _ _ Hv), (get_alerts_vuln_list _ _ Hv1),
          (get_alerts_vuln_list _ _ Hv2).
  rewrite (vuln_loop_typed _ _ Hty), (vuln_loop_typed _ _ Hty1), (vuln_loop_typed _ _ Hty2).
  rewrite fmap_app, total_points_app, !Z.add_0_l.
  split_and!; try done.
  destruct (total_points_bounds (finding_label <$> vs2)) as [[H0 _] _]. lia.
Qed.

Lemma get_alerts_vuln_additive_witness :
  ∃ v1 v2,
    result (get_alerts_vuln (report_of ["low"])) = Return v1 ∧
    result (get_alerts_vuln (report_of ["high"; "critical"])) = Return v2 ∧
    result (get_alerts_vuln (report_of ["low"; "high"; "critical"])) = Return (v1 + v2) ∧
    v1 ≤ v1 + v2.
Proof.
  apply (get_alerts_vuln_additive (report_of ["low"; "high"; "critical"])
           (report_of ["low"]) (report_of ["high"; "critical"])
           (finding <$> ["low"]) (finding <$> ["high"; "critical"])); reflexivity.
Defined.

(** X11 — A [Vulnerabilities] value that is neither null nor a list is
    iterated all the same: an empty dictionary or an empty string scores
    0, a dictionary or string that is not empty raises [TypeError] at its
    first element (a string, which has no ["Vulnerability"] index), and a
    number or boolean raises [TypeError] as not iterable. *)
Theorem get_alerts_vuln_not_a_list (self : ScanReport) (x : pyval) :
  self !! "Vulnerabilities" = Some x →
  is_None x = false →
  (∀ items, x ≠ PList items) →
  (x = PDict ∅ ∨ x = PStr "" → result (get_alerts_vuln self) = Return 0) ∧
  (x ≠ PDict ∅ → x ≠ PStr "" → result (get_alerts_vuln self) = Raise TypeError).
Proof.
  intros Hx Hn Hl. unfold get_alerts_vuln, py_getitem, vuln_str_key_1. rewrite Hx.
  split.
  - by intros [->| ->].
  - intros Hd Hs.
    destruct x as [ | | | |s|items|d]; try done.
    + cbn. destruct (str_chars_cons s) as [->|(c & rest & Hc)]; [done|].
      by rewrite Hc.
    + by destruct (Hl items).
    + cbn. destruct (map_to_list d) as [|[k v] l] eqn:Hl'; [|done].
      apply map_to_list_empty_iff in Hl'. by subst d.
Qed.

Lemma get_alerts_vuln_not_a_list_witness :
  result (get_alerts_vuln {[ "Vulnerabilities" := PDict {[ "CVE-1" := PStr "high" ]} ]}) =
  Raise TypeError.
Proof.
  apply (get_alerts_vuln_not_a_list
           {[ "Vulnerabilities" := PDict {[ "CVE-1" := PStr "high" ]} ]}
           (PDict {[ "CVE-1" := PStr "high" ]}));
    first [reflexivity | discriminate].
Defined.

(* ===================================================================== *)
(** ** More on the detection scans and the status *)
(* ===================================================================== *)

Lemma get_alerts_malware_run (self : ScanReport) (dets : list pyval) :
  self !! "Detections" = Some (PList dets) →
  forallb typed_detection dets = true →
  get_alerts_malware self =
  if existsb (detection_is is_malware) dets
  then mkPy [Log INFO "Searching for malware in scan report..." [];
             Log WARNING "Alert: Malware found" []] (Return 2)
  else mkPy [Log INFO "Searching for malware in scan report..." []] (Return 0).
Proof. intros Hd Hty. by scan_rewrite scan_detections_typed. Qed.

Lemma get_alerts_secrets_run (self : ScanReport) (dets : list pyval) :
  self !! "Detections" = Some (PList dets) →
  forallb typed_detection dets = true →
  get_alerts_secrets self =
  if existsb (detection_is is_secret) dets
  then mkPy [Log INFO "Searching for leaked secrets in scan report..." [];
             Log ERROR "Alert: Leaked secrets detected" []] (Return 3)
  else mkPy [Log INFO "Searching for leaked secrets in scan report..." []] (Return 0).
Proof. intros Hd Hty. by scan_rewrite scan_detections_typed. Qed.

Lemma get_alerts_misconfig_run (self : ScanReport) (dets : list pyval) :
  self !! "Detections" = Some (PList dets) →
  forallb typed_detection dets = true →
  get_alerts_misconfig self =
  if existsb (detection_is is_misconfig) dets
  then mkPy [Log INFO "Searching for misconfigurations in scan report..." [];
             Log WARNING "Alert: Misconfiguration found" []] (Return 0)
  else mkPy [Log INFO "Searching for misconfigurations in scan report..." []] (Return 0).
Proof. intros Hd Hty. by scan_rewrite scan_detections_typed. Qed.

(** X12 — The three detection scans do not depend on the order of the
    detections: on two lists of detections of the expected shape that are
    permutations of each other each scan returns the same code and logs
    the same records. *)
Theorem detection_scans_order (self self' : ScanReport) (dets dets' : list pyval) :
  self !! "Detections" = Some (PList dets) →
  self' !! "Detections" = Some (PList dets') →
  dets ≡ₚ dets' →
  forallb typed_detection dets = true →
  get_alerts_malware self' = get_alerts_malware self ∧
  get_alerts_secrets self' = get_alerts_secrets self ∧
  get_alerts_misconfig self' = get_alerts_misconfig self.
Proof.
  intros Hd Hd' Hp Hty.
  assert (forallb typed_detection dets' = true) as Hty'
    by (by rewrite <- (forallb_Permutation _ _ _ Hp)).
  rewrite (get_alerts_malware_run _ _ Hd Hty), (get_alerts_malware_run _ _ Hd' Hty').
  rewrite (get_alerts_secrets_run _ _ Hd Hty), (get_alerts_secrets_run _ _ Hd' Hty').
  rewrite (get_alerts_misconfig_run _ _ Hd Hty), (get_alerts_misconfig_run _ _ Hd' Hty').
  by rewrite !(existsb_Permutation _ _ _ Hp).
Qed.

Lemma detection_scans_order_witness :
  get_alerts_malware
    {[ "Detections" := PList [detection (PStr "Secret"); detection (PStr "Malware")] ]} =
  get_alerts_malware sample_both.
Proof.
  refine (proj1 (detection_scans_order sample_both
    {[ "Detections" := PList [detection (PStr "Secret"); detection (PStr "Malware")] ]}
    [detection (PStr "Malware"); detection (PStr "Secret")]
    [detection (PStr "Secret"); detection (PStr "Malware")] _ _ _ _));
    [reflexivity|reflexivity|apply Permutation_swap|reflexivity].
Defined.

Lemma lor_code_secrets (v m : Z) :
  m = value Malware ∨ m = 0 →
  Z.lor (Z.lor (Z.lor v m) (value Secrets)) 0 = Z.lor v (value Secrets).
Proof.
  intros [->| ->]; rewrite Z.lor_0_r.
  - by rewrite <- Z.lor_assoc.
  - by rewrite Z.lor_0_r.
Qed.

(** X13 — The combined status of [status_code] cannot tell malware from
    secrets: the codes are ORed bit by bit and 2 | 3 = 3, so on a readable
    report with a secret detection the combined status is the score ORed
    with 3, with or without a malware detection. *)
Theorem status_code_secrets_mask (self : ScanReport) (vs dets : list pyval) :
  self !! "Vulnerabilities" = Some (PList vs) →
  self !! "Detections" = Some (PList dets) →
  forallb typed_finding vs = true →
  forallb typed_detection dets = true →
  existsb (detection_is is_secret) dets = true →
  result (status_code self) =
  Return (Z.lor (total_points (finding_label <$> vs)) 3).
Proof.
  intros Hv Hd Htv Htd Hs.
  rewrite status_code_result.
  rewrite (get_alerts_vuln_list _ _ Hv), (vuln_loop_typed _ _ Htv).
  rewrite (get_alerts_malware_typed _ _ Hd Htd), (get_alerts_secrets_typed _ _ Hd Htd).
  rewrite (get_alerts_misconfig_typed _ _ Hd Htd), Hs, Z.add_0_l.
  cbn [mbind outcome_bind mret]. f_equal.
  apply lor_code_secrets. destruct (existsb (detection_is is_malware) dets); auto.
Qed.

Lemma status_code_secrets_mask_witness :
  result (status_code sample_both) = Return 2003 ∧
  result (status_code
    {[ "Vulnerabilities" := PList [finding "critical"];
       "Detections" := PList [detection (PStr "Secret")] ]}) = Return 2003.
Proof.
  split.
  - exact (status_code_secrets_mask sample_both [finding "critical"]
             [detection (PStr "Malware"); detection (PStr "Secret")]
             eq_refl eq_refl eq_refl eq_refl eq_refl).
  - exact (status_code_secrets_mask
             {[ "Vulnerabilities" := PList [finding "critical"];
                "Detections" := PList [detection (PStr "Secret")] ]}
             [finding "critical"] [detection (PStr "Secret")]
             eq_refl eq_refl eq_refl eq_refl eq_refl).
Defined.

(** X14 — A threshold of zero or less fails every report: with no
    secrets and no malware found the score, which is never negative,
    reaches the threshold, and [main] exits with 1, also for a report
    without any finding. *)
Theorem main_threshold_not_positive (a : Args) (w : World) (self : ScanReport) (v c t : Z) :
  fetched a w self → plugin a = false → export_succeeds a w →
  result (get_alerts_vuln self) = Return v →
  result (get_alerts_secrets self) = Return 0 →
  result (get_alerts_malware self) = Return 0 →
  result (get_alerts_misconfig self) = Return c →
  py_int w (score a) = Return t →
  t ≤ 0 →
  exit_code (main a w) = value Vulnerability.
Proof.
  intros Hf Hp Hex Hv Hs Hm Hc Ht Hle.
  rewrite (main_exit_code a w self v 0 0 c t) by done. cbn.
  destruct (get_alerts_vuln_bounds _ _ Hv) as [H0 _].
  destruct (Z.geb_spec v t); [done|lia].
Qed.

Lemma main_threshold_not_positive_witness :
  exit_code (main (mkArgs "repo" "latest" "0" None 100 false)
               (mkWorld (λ _, mkResponse 200 (report_of []))
                        (λ s, if String.eqb s "0" then Return 0 else Raise ValueError)
                        None)) = 1.
Proof.
  apply (main_threshold_not_positive _ _ (report_of []) 0 0 0); try reflexivity; done.
Defined.

Lemma io_events_bind {A B : Type} (m : Py A) (f : A → Py B) :
  io_events (trace m) = [] →
  (∀ a, io_events (trace (f a)) = []) →
  io_events (trace (m ≫= f)) = [].
Proof.
  intros Hm Hf. rewrite trace_bind. destruct (result m) as [a|e]; [|done].
  unfold io_events in *. by rewrite List.filter_app, Hm, Hf.
Qed.

Lemma vuln_step_only_logs (vulnerability : pyval) (vuln_score : Z) :
  io_events (trace (vuln_step vulnerability vuln_score)) = [].
Proof.
  unfold vuln_step. repeat (apply io_events_bind; [done|intros ?]). done.
Qed.

Lemma vuln_loop_only_logs (vulnerabilities : list pyval) (vuln_score : Z) :
  io_events (trace (vuln_loop vulnerabilities vuln_score)) = [].
Proof.
  revert vuln_score. induction vulnerabilities as [|v rest IH]; intros acc; [done|].
  cbn [vuln_loop]. apply io_events_bind; [apply vuln_step_only_logs|done].
Qed.

Lemma detections_loop_only_logs (is_match : string → bool) (alert : Py unit) (code : Z)
    (detections : list pyval) (det_code : Z) :
  io_events (trace alert) = [] →
  io_events (trace (detections_loop is_match alert code detections det_code)) = [].
Proof.
  intros Ha. induction detections as [|d rest IH]; [done|].
  cbn [detections_loop].
  destruct (detection_type_lower d) as [ty|[]]; try done.
  destruct (is_match ty); [|done]. by apply io_events_bind.
Qed.

Lemma scan_detections_only_logs (opening : string) (is_match : string → bool)
    (alert : Py unit) (code : Z) (self : ScanReport) :
  io_events (trace alert) = [] →
  io_events (trace (scan_detections opening is_match alert code self)) = [].
Proof.
  intros Ha. unfold scan_detections.
  apply io_events_bind; [done|intros _].
  apply io_events_bind; [done|intros detections].
  destruct (negb (is_None detections)); [|done].
  apply io_events_bind; [done|intros items].
  by apply detections_loop_only_logs.
Qed.

(** X15 — The scans do nothing but log: whatever the report, neither
    [get_alerts_vuln], the three detection scans nor [status_code]
    sleeps, calls the scanning service, prints or writes a file. *)
Theorem scans_only_log (self : ScanReport) :
  io_events (trace (get_alerts_vuln self)) = [] ∧
  io_events (trace (get_alerts_malware self)) = [] ∧
  io_events (trace (get_alerts_secrets self)) = [] ∧
  io_events (trace (get_alerts_misconfig self)) = [] ∧
  io_events (trace (status_code self)) = [].
Proof.
  assert (io_events (trace (get_alerts_vuln self)) = []) as Hv.
  { unfold get_alerts_vuln.
    apply io_events_bind; [done|intros _].
    apply io_events_bind; [done|intros vulnerabilities].
    destruct (negb (is_None vulnerabilities)); [|done].
    apply io_events_bind; [done|intros items]. apply vuln_loop_only_logs. }
  assert (io_events (trace (get_alerts_malware self)) = []) as Hm
    by (by apply scan_detections_only_logs).
  assert (io_events (trace (get_alerts_secrets self)) = []) as Hs
    by (by apply scan_detections_only_logs).
  assert (io_events (trace (get_alerts_misconfig self)) = []) as Hc
    by (by apply scan_detections_only_logs).
  split_and!; try done.
  unfold status_code. repeat (apply io_events_bind; [done|intros ?]). done.
Qed.

(* ===================================================================== *)
(** ** EnvDefault and the options of parse_args *)
(* ===================================================================== *)

Lemma truthy_Some (v : string) : truthy (Some v) = negb (String.eqb v "").
Proof. reflexivity. Qed.

(** X16 — For each option of [parse_args] that takes its default from
    the environment, under any environment: the value of the variable,
    when it is set, replaces the coded default; [--clientid] and [--repo]
    are required exactly when their variable is unset or empty; [--tag],
    [--cloud-region], [--score_threshold] and [--retry_count] are required
    exactly when their variable is set to the empty string, which hides
    their coded default; [--json-report] and [--log-level] are never
    required. *)
Theorem parse_args_required (env : gmap string string) (o : EnvOption) :
  o ∈ parse_args_env_options →
  (option_init env o).1 =
    match env !! opt_envvar o with
    | Some v => Some v
    | None => opt_default o
    end ∧
  ((option_init env o).2 = true ↔
   ((opt_dest o = "client_id" ∨ opt_dest o = "repo") ∧
    (env !! opt_envvar o = None ∨ env !! opt_envvar o = Some "")) ∨
   ((opt_dest o = "tag" ∨ opt_dest o = "cloud" ∨ opt_dest o = "score" ∨
     opt_dest o = "retry_count") ∧
    env !! opt_envvar o = Some "")).
Proof.
  intros Ho. split; [by unfold option_init, EnvDefault_init; destruct (env !! _)|].
  unfold parse_args_env_options in Ho.
  repeat (apply elem_of_cons in Ho as [->|Ho]); [..|by apply elem_of_nil in Ho].
  all: unfold option_init, EnvDefault_init; cbn [opt_dest opt_envvar opt_default opt_required snd].
  all: destruct (env !! _) as [v|]; rewrite ?truthy_Some;
         [destruct (String.eqb_spec v "") as [->|Hv]|]; cbn.
  all: split; [intros Hr|intros [[Hdest Henv]|[Hdest Henv]]]; try done.
  all: try (left; split; by auto).
  all: try (right; split; by auto 6).
  all: try (by destruct Hdest).
  all: try (by destruct Henv).
  all: try (by destruct Hdest as [|[|[|]]]).
  all: try (injection Henv as ->; done).
  all: try (destruct Henv as [|Henv]; [done|]; injection Henv as ->; done).
Qed.

Lemma parse_args_required_witness :
  (option_init {[ "CONTAINER_TAG" := "" ]}
     (mkEnvOption "tag" "CONTAINER_TAG" (Some "latest") true)).2 = true.
Proof.
  apply (proj2 (parse_args_required {[ "CONTAINER_TAG" := "" ]}
                  (mkEnvOption "tag" "CONTAINER_TAG" (Some "latest") true)
                  ltac:(set_solver))).
  right. split; [by left|reflexivity].
Defined.

(* ===================================================================== *)
(** ** The container runtime *)
(* ===================================================================== *)

#[local] Set Warnings "-clear-no-such-hyp".

Lemma podman_block_cases (h : Host) :
  (podman_block h = Runtime "podman" ∧
   import_podman h = None ∧ podman_from_env h = None ∧ podman_ping h = None) ∨
  (∃ e, podman_block h = RuntimeRaise e ∧
        ¬ (import_podman h = None ∧ podman_from_env h = None ∧ podman_ping h = None)).
Proof.
  unfold podman_block.
  destruct (import_podman h) as [e1|]; [right; exists e1; naive_solver|].
  destruct (podman_from_env h) as [e2|]; [right; exists e2; naive_solver|].
  destruct (podman_ping h) as [e3|]; [|by left].
  right. destruct e3; eexists; (split; [done|naive_solver]).
Qed.

Lemma docker_block_cases (h : Host) :
  (docker_block h = Runtime "docker" ∧ import_docker h = None ∧ docker_connect h = None) ∨
  (docker_block h = podman_block h ∧ import_docker h = None ∧
   ∃ e, docker_connect h = Some e ∧ is_docker_error e = true) ∨
  (∃ e, docker_block h = RuntimeRaise e ∧ import_docker h = Some e) ∨
  (∃ e, docker_block h = RuntimeRaise e ∧ import_docker h = None ∧
        docker_connect h = Some e ∧ is_docker_error e = false).
Proof.
  unfold docker_block. fold (docker_connect h).
  destruct (import_docker h) as [e|]; [right; right; left; by exists e|].
  destruct (docker_connect h) as [e|]; [|by left].
  destruct e; first [by (right; left; split_and!; [done|done|eexists])
                    | by (right; right; right; eexists)].
Qed.

(** X17 — [detect_container_runtime] answers "docker" exactly when the
    docker library can be imported and [from_env] and [ping] succeed,
    whether podman is there or not; it answers "podman" exactly when
    podman's import, [from_env] and [ping] succeed and docker has failed
    with an [ImportError] or, after its import, with a docker error; it
    gives no other answer. *)
Theorem detect_container_runtime_answers (h : Host) :
  (detect_container_runtime h = Runtime "docker" ↔
   import_docker h = None ∧ docker_connect h = None) ∧
  (detect_container_runtime h = Runtime "podman" ↔
   (import_podman h = None ∧ podman_from_env h = None ∧ podman_ping h = None) ∧
   (import_docker h = Some ImportError ∨
    import_docker h = None ∧
    (docker_connect h = Some ImportError ∨
     ∃ e, docker_connect h = Some e ∧ is_docker_error e = true))) ∧
  (∀ name, detect_container_runtime h = Runtime name → name = "docker" ∨ name = "podman").
Proof.
  unfold detect_container_runtime.
  destruct (podman_block_cases h) as [(Hp & Hp1 & Hp2 & Hp3)|(e' & Hp & Hnp)];
    destruct (docker_block_cases h)
      as [(Hd & Hi & Hc)|[(Hd & Hi & e & Hc & He)|[(e & Hd & Hi)|(e & Hd & Hi & Hc & He)]]];
    rewrite Hd, ?Hp, Hi, ?Hc;
    try destruct e; try destruct e'; try discriminate He;
    (split_and!; [split|split|]); naive_solver.
Qed.

Lemma detect_container_runtime_answers_witness :
  detect_container_runtime
    (mkHost None (Some DockerException) None None None None) = Runtime "podman".
Proof.
  apply (proj1 (proj2 (detect_container_runtime_answers
           (mkHost None (Some DockerException) None None None None)))).
  split; [done|]. right. split; [done|]. right. by exists DockerException.
Defined.

(** X18 — [detect_container_runtime] never raises [ImportError]: a
    missing library surfaces as a [RuntimeError].  When the docker
    library is installed but docker cannot be reached and the podman
    library is missing, the error raised is "Neither Docker nor Podman
    client libraries are available". *)
Theorem detect_container_runtime_import_errors (h : Host) :
  detect_container_runtime h ≠ RuntimeRaise ImportError ∧
  (import_docker h = None →
   (∃ e, docker_connect h = Some e ∧ is_docker_error e = true) →
   import_podman h = Some ImportError →
   detect_container_runtime h = RuntimeRaise (RuntimeError neither_message)).
Proof.
  split.
  - unfold detect_container_runtime.
    destruct (docker_block h) as [name|[]]; try done.
    by destruct (podman_block h) as [name|[]].
  - intros Hi (e & Hc & He) Hp.
    unfold detect_container_runtime, docker_block, podman_block.
    fold (docker_connect h). rewrite Hi, Hc, Hp. by destruct e.
Qed.

Lemma detect_container_runtime_import_errors_witness :
  detect_container_runtime
    (mkHost None None (Some DockerAPIError) (Some ImportError) None None) =
  RuntimeRaise (RuntimeError "Neither Docker nor Podman client libraries are available").
Proof.
  apply (proj2 (detect_container_runtime_import_errors
           (mkHost None None (Some DockerAPIError) (Some ImportError) None None)));
    [reflexivity|by exists DockerAPIError|reflexivity].
Defined.

(* ===================================================================== *)
(** ** The image push *)
(* ===================================================================== *)

Section container_push.
Variable json_loads : string → outcome pyval.
Variable runtime : string.

(** A dictionary without ["error"] gives one event and no exception. *)
Lemma push_line_progress (line : pyval) :
  progress_line line = true →
  ∃ ev, push_line json_loads runtime line = ([ev], None) ∧
        ∀ e, ev ≠ PushFailed e.
Proof.
  destruct line as [ | | | | | |d]; try done. cbn [progress_line].
  intros Hd%bool_decide_eq_true. unfold push_line. cbn [py_contains].
  rewrite bool_decide_eq_false_2 by (rewrite Hd; by intros [? [=]]).
  destruct (d !! "status") as [status|] eqn:Hs.
  - rewrite bool_decide_eq_true_2 by done.
    unfold py_getitem. rewrite Hs.
    destruct (py_eq_str status "Pushing").
    + unfold py_get.
      destruct (d !! "progress"), (d !! "progressDetails"); cbn; by eexists.
    + by eexists.
  - rewrite bool_decide_eq_false_2 by (by intros [? [=]]). by eexists.
Qed.

Lemma push_line_error (d : gmap string pyval) (message : string) :
  d !! "error" = Some (PStr message) →
  push_line json_loads runtime (PDict d) =
  ([], Some (PushAPIError ("container_push " ++ message)%string)).
Proof.
  intros Hd. unfold push_line. cbn [py_contains].
  rewrite bool_decide_eq_true_2 by done.
  unfold py_getitem. by rewrite Hd.
Qed.

Lemma push_loop_progress (lines : list pyval) :
  forallb progress_line lines = true →
  ∃ events, push_loop json_loads runtime lines None = (events, None) ∧
            length events = length lines ∧
            ∀ e, PushFailed e ∉ events.
Proof.
  induction lines as [|line rest IH]; cbn [forallb push_loop].
  - intros _. exists []. split_and!; [done|done|]. intros e. apply not_elem_of_nil.
  - intros [Hl Hrest]%andb_prop.
    destruct (push_line_progress line Hl) as (ev & -> & Hev).
    destruct (IH Hrest) as (events & -> & Hlen & Hno).
    exists (ev :: events). split_and!; [done|by cbn; rewrite Hlen|].
    intros e [Heq|He]%elem_of_cons; [by destruct (Hev e)|by apply (Hno e)].
Qed.

Lemma push_loop_error (before after : list pyval) (ending : option pyexn)
    (d : gmap string pyval) (message : string) :
  forallb progress_line before = true →
  d !! "error" = Some (PStr message) →
  push_loop json_loads runtime (before ++ PDict d :: after) ending =
  ((push_loop json_loads runtime before None).1,
   Some (PushAPIError ("container_push " ++ message)%string)).
Proof.
  intros Hb Hd. induction before as [|line rest IH]; cbn [app forallb push_loop] in *.
  - by rewrite (push_line_error d message Hd).
  - apply andb_prop in Hb as [Hl Hrest].
    destruct (push_line_progress line Hl) as (ev & -> & _).
    rewrite (IH Hrest).
    by destruct (push_loop json_loads runtime rest None).
Qed.

(** X19 — A line of the push stream that carries an ["error"] ends the
    push at once: after lines without error, a dictionary whose ["error"]
    is a string makes the body of [container_push] log "Push failed" and
    raise [APIError] with the status "container_push " followed by the
    error; the lines before it are reported as in a push that ends
    there, and the lines after it, and the way the stream would have
    ended, play no part.  The error wins over a ["status"] in the same
    line. *)
Theorem container_push_error_line (server_domain repo tag : string)
    (before after : list pyval) (ending : option pyexn)
    (d : gmap string pyval) (message : string) :
  forallb progress_line before = true →
  d !! "error" = Some (PStr message) →
  container_push json_loads runtime server_domain repo tag
    (mkPushStream (before ++ PDict d :: after) ending) =
  ((container_push json_loads runtime server_domain repo tag
      (mkPushStream before None)).1
     ++ [PushFailed (PushAPIError ("container_push " ++ message)%string)],
   Some (PushAPIError ("container_push " ++ message)%string)).
Proof.
  intros Hb Hd. unfold container_push. cbn [stream_lines stream_error].
  rewrite (push_loop_error _ _ _ _ _ Hb Hd).
  destruct (push_loop_progress before Hb) as (events & -> & _).
  done.
Qed.

(** X20 — A push stream of dictionaries without ["error"] that ends
    normally never makes the body of [container_push] raise: it returns
    after the opening log line, the call and one event for each line, and
    logs no "Push failed". *)
Theorem container_push_progress (server_domain repo tag : string) (lines : list pyval) :
  forallb progress_line lines = true →
  ∃ events,
    container_push json_loads runtime server_domain repo tag (mkPushStream lines None) =
      (events, None) ∧
    length events = (2 + length lines)%nat ∧
    ∀ e, PushFailed e ∉ events.
Proof.
  intros Hl. unfold container_push. cbn [stream_lines stream_error].
  destruct (push_loop_progress lines Hl) as (events & -> & Hlen & Hno).
  eexists. split_and!; [done|by cbn; rewrite Hlen|].
  intros e [[=]|[[=]|He]%elem_of_cons]%elem_of_cons. by apply (Hno e).
Qed.
End container_push.

Lemma container_push_error_line_witness :
  container_push (λ _, Raise ValueError) "docker" "registry.example" "repo" "latest"
    (mkPushStream
       [PDict {[ "status" := PStr "Preparing" ]};
        PDict {[ "status" := PStr "Pushing"; "error" := PStr "denied" ]};
        PInt 7]
       None) =
  ([PushInfo "Performing container push to %s" [PStr "registry.example/repo:latest"];
    PushCall "registry.example/repo:latest";
    PushInfo "%s: %s" [PStr "Docker"; PStr "Preparing"];
    PushFailed (PushAPIError "container_push denied")],
   Some (PushAPIError "container_push denied")).
Proof.
  exact (container_push_error_line (λ _, Raise ValueError) "docker"
           "registry.example" "repo" "latest"
           [PDict {[ "status" := PStr "Preparing" ]}] [PInt 7] None
           {[ "status" := PStr "Pushing"; "error" := PStr "denied" ]} "denied"
           eq_refl eq_refl).
Defined.

Lemma container_push_progress_witness :
  ∃ events,
    container_push (λ _, Raise ValueError) "podman" "registry.example" "repo" "latest"
      (mkPushStream [PDict {[ "status" := PStr "Pushing" ]}; PDict ∅] None) =
      (events, None) ∧
    length events = 4%nat ∧
    ∀ e, PushFailed e ∉ events.
Proof.
  exact (container_push_progress (λ _, Raise ValueError) "podman"
           "registry.example" "repo" "latest"
           [PDict {[ "status" := PStr "Pushing" ]}; PDict ∅] eq_refl).
Defined.
